(** * The CdkappStack topology declaration (cdkapp_stack.py)

    [CdkappStack.__init__] is a straight-line sequence of calls into the
    provisioning SDK.  Every call either declares a construct inside the
    stack or mutates one declared earlier (a security group gets one more
    inbound rule, a load balancer one more listener, a construct one more
    dependency).  The constructs are Python objects shared by reference, so
    the embedding keeps them in a store keyed by construct id and threads
    that store through the calls; the Python variables [lb_sg], [cluster],
    [listener], ... hold the keys.

    One call leaves the SDK: [open("cdkapp/userdata.sh", "r")].  The host
    (its files and the codec of its locale) is an input of the evaluation,
    and the opened paths are logged.  So is every request for an inbound
    rule, whether the declaration or the SDK makes it. *)

From stdpp Require Import gmap strings list fin_maps.
From Stdlib Require Import ZArith Ascii.

(** ** Python text *)

(** A [str] is a sequence of code points; the bytes of a file are a
    [string]. *)
Definition str := list N.

Definition CR : N := 13.
Definition LF : N := 10.

(** ** aws_ec2 *)

Module ec2.

Inductive SubnetType := PUBLIC | PRIVATE_WITH_EGRESS | PRIVATE_ISOLATED.

Record SubnetConfiguration := {
  subnet_type : SubnetType;
  name : string;
  cidr_mask : Z
}.

(** [ec2.SubnetSelection(subnet_type=...)]; every other field is left at
    its default by the declaration. *)
Record SubnetSelection := { selected_type : SubnetType }.

Record Vpc := {
  vpc_id : string;
  ip_addresses : string;
  nat_gateways : Z;
  subnet_configuration : list SubnetConfiguration;
  availability_zones : list string
}.

(** A peer of a rule: [ec2.Peer.any_ipv4()] or a security group, given by
    the id under which it is stored. *)
Inductive Peer := any_ipv4 | sg_peer (sg : string).

(** [ec2.Port.tcp(p)]; [all_traffic] is what allow-all-outbound uses. *)
Inductive Port := tcp (port : Z) | all_traffic.

Record Rule := { peer : Peer; connection : Port }.

Record SecurityGroup := {
  sg_vpc : string;
  allow_all_outbound : bool;
  ingress : list Rule;
  egress : list Rule
}.

Inductive AmazonLinuxGeneration := AMAZON_LINUX | AMAZON_LINUX_2.
Inductive AmazonLinuxEdition := STANDARD | MINIMAL.
Inductive AmazonLinuxVirt := HVM | PV.
Inductive AmazonLinuxStorage := EBS | GENERAL_PURPOSE.

Record MachineImage := {
  generation : AmazonLinuxGeneration;
  edition : AmazonLinuxEdition;
  virtualization : AmazonLinuxVirt;
  storage : AmazonLinuxStorage
}.

Definition latest_amazon_linux generation edition virtualization storage
  : MachineImage :=
  {| generation := generation; edition := edition;
     virtualization := virtualization; storage := storage |}.

(** [ec2.InstanceType("t2.small")] keeps the identifier it is given. *)
Record InstanceType := { instance_type_identifier : string }.

(** [ec2.UserData.custom(content)] renders to [content], unchanged. *)
Inductive UserData := custom (content : str).

Definition render (u : UserData) : str :=
  match u with custom content => content end.

Record Instance := {
  instance_type : InstanceType;
  machine_image : MachineImage;
  instance_vpc : string;
  vpc_subnets : SubnetSelection;
  availability_zone : string;
  security_group : string;
  user_data : UserData;
  role : string
}.

End ec2.

(** ** aws_cdk.SecretValue and aws_rds *)

(** Where a secret comes from.  [SecretValue(v)] called directly, as the
    declaration does, wraps the literal [v]; the other constructors are the
    SDK's references into a secret store. *)
Inductive SecretValue :=
| SecretValue_literal (value : string)
| SecretValue_secrets_manager (secret_id : string)
| SecretValue_ssm_secure (parameter_name : string).

Module rds.

Inductive AuroraMysqlEngineVersion := VER_3_04_0.

Inductive DatabaseClusterEngine :=
| aurora_mysql (version : AuroraMysqlEngineVersion).

Inductive Credentials :=
| from_password (username : string) (password : SecretValue)
| from_generated_secret (username : string).

Record InstanceProps := {
  props_vpc : string;
  security_groups : list string;
  vpc_subnets : ec2.SubnetSelection
}.

Record DatabaseCluster := {
  engine : DatabaseClusterEngine;
  credentials : Credentials;
  default_database_name : string;
  instance_props : InstanceProps;
  instances : Z
}.

End rds.

(** ** aws_iam *)

Module iam.

(** A role imported with [iam.Role.from_role_name]: a reference, by name,
    to a role that exists outside the stack. *)
Record ImportedRole := { role_name : string }.

End iam.

(** ** aws_elasticloadbalancingv2 *)

Module elbv2.

Record TargetGroup := {
  group_port : Z;
  targets : list string
}.

Record Listener := {
  port : Z;
  open : bool;
  target_groups : gmap string TargetGroup
}.

Record ApplicationLoadBalancer := {
  lb_vpc : string;
  internet_facing : bool;
  security_group : string;
  listeners : gmap string Listener
}.

End elbv2.

#[global] Instance SubnetType_eq_dec : EqDecision ec2.SubnetType.
Proof. solve_decision. Defined.
#[global] Instance Peer_eq_dec : EqDecision ec2.Peer.
Proof. solve_decision. Defined.
#[global] Instance Port_eq_dec : EqDecision ec2.Port.
Proof. solve_decision. Defined.
#[global] Instance Rule_eq_dec : EqDecision ec2.Rule.
Proof. solve_decision. Defined.

(** ** The stack under construction *)

(** A construct is named by its path below the stack: [["MyDatabase"]],
    [["MyLoadBalancer"; "Listener"]]. *)
Definition Path := list string.

(** The resource graph.  [stack_azs] is [Stack.availability_zones];
    [children] lists the ids declared directly in the stack, in declaration
    order; [ssm_parameters] holds, by construct id, the SSM parameters the
    SDK imports into the stack to resolve machine images; [dependencies]
    holds the pairs [(dependent, dependency)] recorded by
    [node.add_dependency]. *)
Record Stack := {
  stack_name : string;
  stack_azs : list string;
  children : list string;
  vpcs : gmap string ec2.Vpc;
  security_groups : gmap string ec2.SecurityGroup;
  clusters : gmap string rds.DatabaseCluster;
  roles : gmap string iam.ImportedRole;
  instances : gmap string ec2.Instance;
  load_balancers : gmap string elbv2.ApplicationLoadBalancer;
  ssm_parameters : gmap string string;
  dependencies : list (Path * Path)
}.

(** What [__init__] receives as [scope], an [App] or a [Stage]: the
    availability zones its environment resolves to
    ([Stack.availability_zones]), the ids of the constructs already
    declared in it, and the name of the stage ([None] for an [App]). *)
Record Scope := {
  scope_azs : list string;
  scope_ids : list string;
  scope_stage : option string
}.

(** How the operating system answers [open] for a path that exists: with
    the bytes of a regular file, or with an error. *)
Inductive OpenError := EACCES | EISDIR | ENOTDIR | EIO.

Inductive File := Readable (content : string) | Refused (e : OpenError).

(** The host the evaluation runs on: its files by path (a path that is
    not there does not exist) and the codec of its locale, which turns
    bytes into text or fails. *)
Record Host := {
  files : gmap string File;
  codec : string → option str
}.

(** [RuntimeError] is what an error inside the SDK arrives as;
    [DuplicateConstruct] is the one for a construct id that is taken. *)
Inductive Exception :=
| RuntimeError
| DuplicateConstruct (id : string)
| FileNotFoundError (path : string)
| PermissionError (path : string)
| IsADirectoryError (path : string)
| NotADirectoryError (path : string)
| OSError (path : string)
| UnicodeDecodeError
| IndexError.

(** The state threaded through the constructor: the ids declared in the
    scope, the stack, the log of the paths given to [open], and the log of
    the inbound rules asked of security groups. *)
Record World := {
  registered : list string;
  root : Stack;
  opened : list string;
  requested : list (string * ec2.Rule)
}.

Definition M (A : Type) : Type := World → Exception + (A * World).

Definition ret {A} (a : A) : M A := λ w, inr (a, w).

Definition bind {A B} (m : M A) (k : A → M B) : M B :=
  λ w, match m w with
       | inl e => inl e
       | inr (a, w') => k a w'
       end.

Definition raise {A} (e : Exception) : M A := λ _, inl e.

Definition modify (f : Stack → Stack) : M unit :=
  λ w, inr (tt, {| registered := registered w; root := f (root w);
                   opened := opened w; requested := requested w |}).

Definition gets {A} (f : Stack → A) : M A := λ w, inr (f (root w), w).

Notation "x <- m ;; k" := (bind m (λ x, k))
  (at level 100, m at next level, right associativity, only parsing).
Notation "m ;; k" := (bind m (λ _, k))
  (at level 100, right associativity, only parsing).

(** Field updates of [Stack]. *)

Definition with_children (f : list string → list string) (s : Stack) : Stack :=
  {| stack_name := stack_name s; stack_azs := stack_azs s;
     children := f (children s); vpcs := vpcs s;
     security_groups := security_groups s; clusters := clusters s;
     roles := roles s; instances := instances s;
     load_balancers := load_balancers s;
     ssm_parameters := ssm_parameters s; dependencies := dependencies s |}.

Definition with_vpcs (f : gmap string ec2.Vpc → gmap string ec2.Vpc)
  (s : Stack) : Stack :=
  {| stack_name := stack_name s; stack_azs := stack_azs s;
     children := children s; vpcs := f (vpcs s);
     security_groups := security_groups s; clusters := clusters s;
     roles := roles s; instances := instances s;
     load_balancers := load_balancers s;
     ssm_parameters := ssm_parameters s; dependencies := dependencies s |}.

Definition with_security_groups
  (f : gmap string ec2.SecurityGroup → gmap string ec2.SecurityGroup)
  (s : Stack) : Stack :=
  {| stack_name := stack_name s; stack_azs := stack_azs s;
     children := children s; vpcs := vpcs s;
     security_groups := f (security_groups s); clusters := clusters s;
     roles := roles s; instances := instances s;
     load_balancers := load_balancers s;
     ssm_parameters := ssm_parameters s; dependencies := dependencies s |}.

Definition with_clusters
  (f : gmap string rds.DatabaseCluster → gmap string rds.DatabaseCluster)
  (s : Stack) : Stack :=
  {| stack_name := stack_name s; stack_azs := stack_azs s;
     children := children s; vpcs := vpcs s;
     security_groups := security_groups s; clusters := f (clusters s);
     roles := roles s; instances := instances s;
     load_balancers := load_balancers s;
     ssm_parameters := ssm_parameters s; dependencies := dependencies s |}.

Definition with_roles
  (f : gmap string iam.ImportedRole → gmap string iam.ImportedRole)
  (s : Stack) : Stack :=
  {| stack_name := stack_name s; stack_azs := stack_azs s;
     children := children s; vpcs := vpcs s;
     security_groups := security_groups s; clusters := clusters s;
     roles := f (roles s); instances := instances s;
     load_balancers := load_balancers s;
     ssm_parameters := ssm_parameters s; dependencies := dependencies s |}.

Definition with_instances
  (f : gmap string ec2.Instance → gmap string ec2.Instance)
  (s : Stack) : Stack :=
  {| stack_name := stack_name s; stack_azs := stack_azs s;
     children := children s; vpcs := vpcs s;
     security_groups := security_groups s; clusters := clusters s;
     roles := roles s; instances := f (instances s);
     load_balancers := load_balancers s;
     ssm_parameters := ssm_parameters s; dependencies := dependencies s |}.

Definition with_load_balancers
  (f : gmap string elbv2.ApplicationLoadBalancer
       → gmap string elbv2.ApplicationLoadBalancer)
  (s : Stack) : Stack :=
  {| stack_name := stack_name s; stack_azs := stack_azs s;
     children := children s; vpcs := vpcs s;
     security_groups := security_groups s; clusters := clusters s;
     roles := roles s; instances := instances s;
     load_balancers := f (load_balancers s);
     ssm_parameters := ssm_parameters s; dependencies := dependencies s |}.

Definition with_dependencies
  (f : list (Path * Path) → list (Path * Path)) (s : Stack) : Stack :=
  {| stack_name := stack_name s; stack_azs := stack_azs s;
     children := children s; vpcs := vpcs s;
     security_groups := security_groups s; clusters := clusters s;
     roles := roles s; instances := instances s;
     load_balancers := load_balancers s;
     ssm_parameters := ssm_parameters s;
     dependencies := f (dependencies s) |}.

Definition with_ssm_parameters
  (f : gmap string string → gmap string string) (s : Stack) : Stack :=
  {| stack_name := stack_name s; stack_azs := stack_azs s;
     children := children s; vpcs := vpcs s;
     security_groups := security_groups s; clusters := clusters s;
     roles := roles s; instances := instances s;
     load_balancers := load_balancers s;
     ssm_parameters := f (ssm_parameters s);
     dependencies := dependencies s |}.

(** ** Python primitives *)

(** Universal newlines, as text mode applies them on reading: CR LF and
    a lone CR both become LF. *)
Fixpoint translate_newlines (s : str) : str :=
  match s with
  | [] => []
  | c :: s' =>
      if (c =? CR)%N
      then LF :: match s' with
                 | c' :: s'' =>
                     if (c' =? LF)%N then translate_newlines s''
                     else translate_newlines s'
                 | [] => []
                 end
      else c :: translate_newlines s'
  end.

Definition os_error (e : OpenError) (path : string) : Exception :=
  match e with
  | EACCES => PermissionError path
  | EISDIR => IsADirectoryError path
  | ENOTDIR => NotADirectoryError path
  | EIO => OSError path
  end.

(** What [open(path, "r")] followed by [read()] yields: the bytes of the
    file decoded by the locale's codec, newlines translated; or the
    [OSError] of [open]; or [UnicodeDecodeError]. *)
Definition read_text (fs : Host) (path : string) : Exception + str :=
  match files fs !! path with
  | None => inl (FileNotFoundError path)
  | Some (Refused e) => inl (os_error e path)
  | Some (Readable content) =>
      match codec fs content with
      | None => inl UnicodeDecodeError
      | Some text => inr (translate_newlines text)
      end
  end.

(** [with open(path, "r") as f: f.read()]. *)
Definition open_read (fs : Host) (path : string) : M str :=
  λ w, match read_text fs path with
       | inl e => inl e
       | inr text =>
           inr (text, {| registered := registered w; root := root w;
                         opened := opened w ++ [path];
                         requested := requested w |})
       end.

(** [l[i]] for a literal index [i >= 0]. *)
Definition index {A} (l : list A) (i : nat) : M A :=
  match l !! i with
  | Some x => ret x
  | None => raise IndexError
  end.

(** ** The SDK calls the declaration makes

    Each definition states what the call does to the stack.  Arguments the
    declaration leaves out are fixed at the SDK's defaults and named in the
    comments. *)

(** A construct id is stored with every path separator replaced. *)
Fixpoint sanitize_id (id : string) : string :=
  match id with
  | EmptyString => EmptyString
  | String a s =>
      if Ascii.eqb a "/"%char then "--" +:+ sanitize_id s
      else String a (sanitize_id s)
  end.

Definition is_letter (a : ascii) : bool :=
  let n := Ascii.nat_of_ascii a in
  (Nat.leb 65 n && Nat.leb n 90) || (Nat.leb 97 n && Nat.leb n 122).

Definition is_digit (a : ascii) : bool :=
  let n := Ascii.nat_of_ascii a in Nat.leb 48 n && Nat.leb n 57.

Fixpoint all_name_chars (s : string) : bool :=
  match s with
  | EmptyString => true
  | String a s' =>
      (is_letter a || is_digit a || Ascii.eqb a "-"%char) && all_name_chars s'
  end.

(** A stack name is a letter followed by letters, digits and hyphens, 128
    characters at most. *)
Definition valid_stack_name (n : string) : bool :=
  match n with
  | EmptyString => false
  | String a s => is_letter a && all_name_chars s
  end && Nat.leb (String.length n) 128.

(** The name of a stack declared under [construct_id] in [scope]: the id,
    after the stage's name when the scope is a stage. *)
Definition stack_name_in (scope : Scope) (construct_id : string) : string :=
  match scope_stage scope with
  | Some stage => stage +:+ "-" +:+ sanitize_id construct_id
  | None => sanitize_id construct_id
  end.

(** [super().__init__(scope, construct_id)].  The construct needs an id
    that is not empty and not taken in the scope, where it is then
    registered; the stack needs a valid name.  [self] becomes an empty
    stack of that name in the environment of [scope]. *)
Definition Stack_init (scope : Scope) (construct_id : string) : M unit :=
  if bool_decide (construct_id = "") then raise RuntimeError
  else if bool_decide (sanitize_id construct_id ∈ scope_ids scope)
  then raise (DuplicateConstruct (sanitize_id construct_id))
  else if valid_stack_name (stack_name_in scope construct_id)
  then λ w,
    inr (tt,
         {| registered := scope_ids scope ++ [sanitize_id construct_id];
            root :=
              {| stack_name := stack_name_in scope construct_id;
                 stack_azs := scope_azs scope;
                 children := []; vpcs := ∅; security_groups := ∅;
                 clusters := ∅; roles := ∅; instances := ∅;
                 load_balancers := ∅; ssm_parameters := ∅;
                 dependencies := [] |};
            opened := opened w; requested := requested w |})
  else raise RuntimeError.

(** Every construct declared with [self] as its scope registers its id in
    the stack; an id that is already taken is refused. *)
Definition add_child (id : string) : M unit :=
  λ w, if bool_decide (sanitize_id id ∈ children (root w))
       then inl (DuplicateConstruct (sanitize_id id))
       else modify (with_children (λ l, l ++ [sanitize_id id])) w.

(** [vpc.select_subnets(selection)], as every resource placed in the VPC
    calls it: the VPC has one subnet per availability zone for each of
    its subnet configurations, and selecting a class of which it has no
    subnet is an error. *)
Definition select_subnets (vpc : ec2.Vpc) (selection : ec2.SubnetSelection)
  : M unit :=
  if bool_decide (ec2.availability_zones vpc ≠ [])
     && existsb (λ cfg, bool_decide (ec2.subnet_type cfg
                                     = ec2.selected_type selection))
          (ec2.subnet_configuration vpc)
  then ret tt
  else raise RuntimeError.

(** [ec2.Vpc(self, id, ip_addresses=ec2.IpAddresses.cidr(c), nat_gateways=n,
    subnet_configuration=cfg)].  [max_azs] is left at its default, 3: the
    VPC spans the first three availability zones of the stack.  The object
    is not changed after its construction, so the variable [vpc] holds the
    value itself. *)
Definition ec2_Vpc (id cidr : string) (nat_gateways : Z)
  (cfg : list ec2.SubnetConfiguration) : M ec2.Vpc :=
  add_child id ;;
  azs <- gets stack_azs ;;
  let vpc := {| ec2.vpc_id := id; ec2.ip_addresses := cidr;
                ec2.nat_gateways := nat_gateways;
                ec2.subnet_configuration := cfg;
                ec2.availability_zones := take 3 azs |} in
  modify (with_vpcs <[id := vpc]>) ;;
  ret vpc.

(** The egress rule of a group that allows all outbound traffic. *)
Definition ALLOW_ALL_RULE : ec2.Rule :=
  {| ec2.peer := ec2.any_ipv4; ec2.connection := ec2.all_traffic |}.

(** [ec2.SecurityGroup(self, id, vpc=vpc, allow_all_outbound=b)]: no inbound
    rule; outbound, the allow-all rule when [b] holds. *)
Definition ec2_SecurityGroup (id : string) (vpc : ec2.Vpc)
  (allow_all_outbound : bool) : M string :=
  add_child id ;;
  modify (with_security_groups
    <[id := {| ec2.sg_vpc := ec2.vpc_id vpc;
               ec2.allow_all_outbound := allow_all_outbound;
               ec2.ingress := [];
               ec2.egress := if allow_all_outbound then [ALLOW_ALL_RULE]
                             else [] |}]>) ;;
  ret id.

(** [sg.add_ingress_rule(peer=p, connection=c)].  The SDK compares the new
    rule with the ones the group already has (peer, protocol and port
    range; the description is not compared) and drops a duplicate. *)
Definition add_rule (r : ec2.Rule) (sg : ec2.SecurityGroup)
  : ec2.SecurityGroup :=
  if bool_decide (r ∈ ec2.ingress sg) then sg
  else {| ec2.sg_vpc := ec2.sg_vpc sg;
          ec2.allow_all_outbound := ec2.allow_all_outbound sg;
          ec2.ingress := ec2.ingress sg ++ [r];
          ec2.egress := ec2.egress sg |}.

Definition add_ingress_rule (sg : string) (peer : ec2.Peer)
  (connection : ec2.Port) : M unit :=
  let r := {| ec2.peer := peer; ec2.connection := connection |} in
  λ w, inr (tt,
            {| registered := registered w;
               root := with_security_groups (alter (add_rule r) sg) (root w);
               opened := opened w;
               requested := requested w ++ [(sg, r)] |}).

(** [rds.DatabaseCluster(self, id, engine=..., credentials=...,
    default_database_name=...,
    instance_props=rds.InstanceProps(vpc=..., security_groups=...,
    vpc_subnets=...), instances=n)].  The cluster selects its subnets in
    the VPC. *)
Definition rds_DatabaseCluster (id : string)
  (engine : rds.DatabaseClusterEngine) (credentials : rds.Credentials)
  (default_database_name : string) (vpc : ec2.Vpc)
  (security_groups : list string) (vpc_subnets : ec2.SubnetSelection)
  (instances : Z) : M string :=
  add_child id ;;
  select_subnets vpc vpc_subnets ;;
  modify (with_clusters
    <[id := {| rds.engine := engine; rds.credentials := credentials;
               rds.default_database_name := default_database_name;
               rds.instance_props :=
                 {| rds.props_vpc := ec2.vpc_id vpc;
                    rds.security_groups := security_groups;
                    rds.vpc_subnets := vpc_subnets |};
               rds.instances := instances |}]>) ;;
  ret id.

(** [iam.Role.from_role_name(self, id, role_name=n)]. *)
Definition iam_Role_from_role_name (id role_name : string) : M string :=
  add_child id ;;
  modify (with_roles <[id := {| iam.role_name := role_name |}]>) ;;
  ret id.

(** The SSM parameter that holds the id of the latest image of an Amazon
    Linux flavour. *)
Definition ssm_parameter_name (image : ec2.MachineImage) : string :=
  "/aws/service/ami-amazon-linux-latest/"
  +:+ match ec2.generation image with
      | ec2.AMAZON_LINUX => "amzn"
      | ec2.AMAZON_LINUX_2 => "amzn2"
      end
  +:+ "-ami-"
  +:+ match ec2.edition image with
      | ec2.STANDARD => ""
      | ec2.MINIMAL => "minimal-"
      end
  +:+ match ec2.virtualization image with
      | ec2.HVM => "hvm"
      | ec2.PV => "pv"
      end
  +:+ "-x86_64-"
  +:+ match ec2.storage image with
      | ec2.EBS => "ebs"
      | ec2.GENERAL_PURPOSE => "gp2"
      end.

(** The construct id under which the SDK imports an SSM parameter into a
    stack. *)
Definition imported_value_id (parameter_name : string) : string :=
  "SsmParameterValue:" +:+ parameter_name
  +:+ ":C96584B6-F00A-464E-AD19-53AFF4B05118".

(** [machine_image.get_image(instance)]: the image id is read from an SSM
    parameter imported into the stack.  The first instance to ask
    declares two constructs directly in the stack, the parameter and its
    import; a later one finds the import there. *)
Definition get_image (image : ec2.MachineImage) : M unit :=
  let id := imported_value_id (ssm_parameter_name image) in
  found <- gets (λ s, bool_decide (sanitize_id id ∈ children s)) ;;
  if (found : bool) then ret tt
  else
    add_child (id +:+ ".Parameter") ;;
    add_child id ;;
    modify (with_ssm_parameters
      <[sanitize_id id := ssm_parameter_name image]>).

(** [ec2.Instance(self, id, instance_type=..., machine_image=..., vpc=...,
    vpc_subnets=..., availability_zone=..., security_group=...,
    user_data=..., role=...)].  The instance resolves its image and selects
    its subnets in the VPC. *)
Definition ec2_Instance (id : string) (instance_type : ec2.InstanceType)
  (machine_image : ec2.MachineImage) (vpc : ec2.Vpc)
  (vpc_subnets : ec2.SubnetSelection) (availability_zone : string)
  (security_group : string) (user_data : ec2.UserData) (role : string)
  : M string :=
  add_child id ;;
  get_image machine_image ;;
  select_subnets vpc vpc_subnets ;;
  modify (with_instances
    <[id := {| ec2.instance_type := instance_type;
               ec2.machine_image := machine_image;
               ec2.instance_vpc := ec2.vpc_id vpc;
               ec2.vpc_subnets := vpc_subnets;
               ec2.availability_zone := availability_zone;
               ec2.security_group := security_group;
               ec2.user_data := user_data;
               ec2.role := role |}]>) ;;
  ret id.

(** [elbv2.ApplicationLoadBalancer(self, id, vpc=..., internet_facing=...,
    security_group=...)]: a load balancer without listeners.  It selects
    the public subnets of the VPC when it is internet-facing and the
    private ones otherwise. *)
Definition elbv2_ApplicationLoadBalancer (id : string) (vpc : ec2.Vpc)
  (internet_facing : bool) (security_group : string) : M string :=
  add_child id ;;
  select_subnets vpc
    {| ec2.selected_type := if internet_facing then ec2.PUBLIC
                            else ec2.PRIVATE_WITH_EGRESS |} ;;
  modify (with_load_balancers
    <[id := {| elbv2.lb_vpc := ec2.vpc_id vpc;
               elbv2.internet_facing := internet_facing;
               elbv2.security_group := security_group;
               elbv2.listeners := ∅ |}]>) ;;
  ret id.

(** The security groups behind [lb.connections]. *)
Definition connections (lb : string) : M (list string) :=
  gets (λ s, match load_balancers s !! lb with
             | Some l => [elbv2.security_group l]
             | None => []
             end).

Fixpoint for_each {A} (l : list A) (f : A → M unit) : M unit :=
  match l with
  | [] => ret tt
  | x :: l' => f x ;; for_each l' f
  end.

Definition with_listeners
  (f : gmap string elbv2.Listener → gmap string elbv2.Listener)
  (l : elbv2.ApplicationLoadBalancer) : elbv2.ApplicationLoadBalancer :=
  {| elbv2.lb_vpc := elbv2.lb_vpc l;
     elbv2.internet_facing := elbv2.internet_facing l;
     elbv2.security_group := elbv2.security_group l;
     elbv2.listeners := f (elbv2.listeners l) |}.

Definition with_target_groups
  (f : gmap string elbv2.TargetGroup → gmap string elbv2.TargetGroup)
  (l : elbv2.Listener) : elbv2.Listener :=
  {| elbv2.port := elbv2.port l; elbv2.open := elbv2.open l;
     elbv2.target_groups := f (elbv2.target_groups l) |}.

(** [lb.add_listener(id, port=p, open=o)]: a listener on port [p] without
    target groups, declared below the load balancer.  When [o] holds the
    SDK also lets any IPv4 address in on the listener's port, through
    [add_ingress_rule] on every security group of the load balancer.  The
    result names the listener by its load balancer and its id. *)
Definition add_listener (lb id : string) (port : Z) (open : bool)
  : M (string * string) :=
  modify (with_load_balancers (alter (with_listeners
    <[id := {| elbv2.port := port; elbv2.open := open;
               elbv2.target_groups := ∅ |}]>) lb)) ;;
  (if open
   then sgs <- connections lb ;;
        for_each sgs (λ sg, add_ingress_rule sg ec2.any_ipv4 (ec2.tcp port))
   else ret tt) ;;
  ret (lb, id).

(** [listener.add_targets(id, port=p)].  The declaration gives no [targets]
    argument: the SDK creates the target group with no target registered
    in it. *)
Definition add_targets (listener : string * string) (id : string) (port : Z)
  : M unit :=
  modify (with_load_balancers (alter (with_listeners (alter (with_target_groups
    <[id := {| elbv2.group_port := port; elbv2.targets := [] |}]>)
    listener.2)) listener.1)).

(** [c.node]: the path of a construct declared directly in the stack, and
    that of a listener. *)
Definition node (id : string) : Path := [id].

Definition listener_node (listener : string * string) : Path :=
  [listener.1; listener.2].

(** [dependent.add_dependency(dependency)]: the dependencies of a node are
    a set, kept in insertion order. *)
Definition add_dependency (dependent dependency : Path) : M unit :=
  modify (with_dependencies (λ l,
    if bool_decide ((dependent, dependency) ∈ l) then l
    else l ++ [(dependent, dependency)])).

(** ** The declaration *)

Definition userdata_path : string := "cdkapp/userdata.sh".

(** [CdkappStack.__init__(self, scope, construct_id)], statement by
    statement.  Keyword arguments are evaluated left to right before the
    call they belong to: the availability zone is indexed, and the role is
    imported, before the instance is declared. *)
Definition __init__ (fs : Host) (scope : Scope)
  (construct_id : string) : M unit :=
  Stack_init scope construct_id ;;
  vpc <- ec2_Vpc "MyVPC" "10.10.0.0/16" 1
    [ {| ec2.subnet_type := ec2.PUBLIC; ec2.name := "Public";
         ec2.cidr_mask := 24 |};
      {| ec2.subnet_type := ec2.PRIVATE_WITH_EGRESS;
         ec2.name := "PrivateWithEgress"; ec2.cidr_mask := 24 |};
      {| ec2.subnet_type := ec2.PRIVATE_ISOLATED; ec2.name := "RDS";
         ec2.cidr_mask := 24 |} ] ;;
  lb_sg <- ec2_SecurityGroup "lb_sg" vpc true ;;
  rds_sg <- ec2_SecurityGroup "rds_sg" vpc true ;;
  ec2_sg <- ec2_SecurityGroup "ec2_sg" vpc true ;;
  add_ingress_rule lb_sg ec2.any_ipv4 (ec2.tcp 80) ;;
  add_ingress_rule ec2_sg (ec2.sg_peer lb_sg) (ec2.tcp 8443) ;;
  add_ingress_rule rds_sg (ec2.sg_peer ec2_sg) (ec2.tcp 3306) ;;
  add_ingress_rule rds_sg (ec2.sg_peer ec2_sg) (ec2.tcp 22) ;;
  cluster <- rds_DatabaseCluster "MyDatabase"
    (rds.aurora_mysql rds.VER_3_04_0)
    (rds.from_password "testuser" (SecretValue_literal "password1234!"))
    "Population" vpc [rds_sg]
    {| ec2.selected_type := ec2.PRIVATE_ISOLATED |} 1 ;;
  let amzn_linux :=
    ec2.latest_amazon_linux ec2.AMAZON_LINUX_2 ec2.STANDARD ec2.HVM
      ec2.GENERAL_PURPOSE in
  user_data <- open_read fs userdata_path ;;
  az <- index (ec2.availability_zones vpc) 0 ;;
  role <- iam_Role_from_role_name "ec2_instance_role" "ec2_instance_role" ;;
  ec2_instance <- ec2_Instance "MyInstance"
    {| ec2.instance_type_identifier := "t2.small" |} amzn_linux vpc
    {| ec2.selected_type := ec2.PRIVATE_WITH_EGRESS |} az ec2_sg
    (ec2.custom user_data) role ;;
  az2 <- index (ec2.availability_zones vpc) 1 ;;
  role2 <- iam_Role_from_role_name "ec2_instance_role2" "ec2_instance_role" ;;
  ec2_instance2 <- ec2_Instance "MyInstance2"
    {| ec2.instance_type_identifier := "t2.small" |} amzn_linux vpc
    {| ec2.selected_type := ec2.PRIVATE_WITH_EGRESS |} az2 ec2_sg
    (ec2.custom user_data) role2 ;;
  lb <- elbv2_ApplicationLoadBalancer "MyLoadBalancer" vpc true lb_sg ;;
  listener <- add_listener lb "Listener" 80 true ;;
  add_targets listener "Targets" 80 ;;
  add_dependency (node ec2_instance) (node cluster) ;;
  add_dependency (listener_node listener) (node ec2_instance) ;;
  add_dependency (listener_node listener) (node ec2_instance2).

(** [self] before [__init__] runs, and the world around it: nothing
    declared, no file opened. *)
Definition blank : World :=
  {| registered := [];
     root := {| stack_name := ""; stack_azs := []; children := [];
                vpcs := ∅; security_groups := ∅; clusters := ∅; roles := ∅;
                instances := ∅; load_balancers := ∅; ssm_parameters := ∅;
                dependencies := [] |};
     opened := []; requested := [] |}.

(** One evaluation of the declaration: the world after [__init__], or the
    exception that leaves it.  An exception propagates out of the
    constructor, so the caller gets no stack object. *)
Definition evaluate (fs : Host) (scope : Scope)
  (construct_id : string) : Exception + World :=
  match __init__ fs scope construct_id blank with
  | inl e => inl e
  | inr (_, w) => inr w
  end.

(** [CdkappStack(scope, construct_id)]: the resource graph. *)
Definition CdkappStack (fs : Host) (scope : Scope)
  (construct_id : string) : Exception + Stack :=
  match evaluate fs scope construct_id with
  | inl e => inl e
  | inr w => inr (root w)
  end.

(** ** Which traffic a list of rules lets through

    A rule names a peer and a connection.  [any_ipv4] stands for every IPv4
    address; a security group as peer stands for the interfaces attached to
    that group.  [tcp p] is TCP port [p] alone; [all_traffic] is every
    protocol and port. *)

Inductive Protocol := TCP | UDP | ICMP.

(** An interface on the network: its IPv4 address and the security groups
    it is attached to. *)
Record Endpoint := { ip : Z; groups : list string }.

Definition peer_matches (p : ec2.Peer) (e : Endpoint) : bool :=
  match p with
  | ec2.any_ipv4 => true
  | ec2.sg_peer sg => bool_decide (sg ∈ groups e)
  end.

Definition port_matches (c : ec2.Port) (proto : Protocol) (port : Z) : bool :=
  match c, proto with
  | ec2.tcp p, TCP => bool_decide (p = port)
  | ec2.tcp _, _ => false
  | ec2.all_traffic, _ => true
  end.

Definition admits (rules : list ec2.Rule) (e : Endpoint) (proto : Protocol)
  (port : Z) : bool :=
  existsb (λ r, peer_matches (ec2.peer r) e
                && port_matches (ec2.connection r) proto port) rules.

(** ** Where a resource is placed, and what must be ready before what *)

Inductive Resource :=
| Cluster (id : string)
| Instance (id : string)
| LoadBalancer (id : string).

(** The subnet class of a declared resource.  A cluster and an instance
    carry their subnet selection.  The load balancer is declared without
    one: the SDK places an internet-facing load balancer in the public
    subnets and any other in the private ones. *)
Definition subnet_class (g : Stack) (r : Resource) : option ec2.SubnetType :=
  match r with
  | Cluster id =>
      c ← clusters g !! id;
      Some (ec2.selected_type (rds.vpc_subnets (rds.instance_props c)))
  | Instance id =>
      i ← instances g !! id;
      Some (ec2.selected_type (ec2.vpc_subnets i))
  | LoadBalancer id =>
      l ← load_balancers g !! id;
      Some (if elbv2.internet_facing l then ec2.PUBLIC
            else ec2.PRIVATE_WITH_EGRESS)
  end.

(** An ordering edge [(a, b)] reads "[a] is ready before [b] starts": the
    dependency first, the dependent second. *)
Definition ordering_edges (g : Stack) : list (Path * Path) :=
  (λ d, (d.2, d.1)) <$> dependencies g.

(** The security groups a declared resource is attached to. *)
Definition attached_groups (g : Stack) (r : Resource) : list string :=
  match r with
  | Cluster id =>
      match clusters g !! id with
      | Some c => rds.security_groups (rds.instance_props c)
      | None => []
      end
  | Instance id =>
      match instances g !! id with
      | Some i => [ec2.security_group i]
      | None => []
      end
  | LoadBalancer id =>
      match load_balancers g !! id with
      | Some l => [elbv2.security_group l]
      | None => []
      end
  end.

(** The checks of [super().__init__]: the stack can be constructed under
    [construct_id] in [scope]. *)
Definition constructible (scope : Scope) (construct_id : string) : Prop :=
  construct_id ≠ ""
  ∧ (sanitize_id construct_id ∉ scope_ids scope)
  ∧ valid_stack_name (stack_name_in scope construct_id) = true.


(** ** Sample inputs *)

(** The [ascii] codec: a byte below 128 is its own code point, any other
    byte cannot be decoded. *)
Fixpoint decode_ascii (bytes : string) : option str :=
  match bytes with
  | EmptyString => Some []
  | String a s =>
      if N.ltb (Ascii.N_of_ascii a) 128
      then cons (Ascii.N_of_ascii a) <$> decode_ascii s
      else None
  end.

Definition fs0 : Host :=
  {| files := {[ userdata_path := Readable "#!/bin/bash" ]};
     codec := decode_ascii |}.

(** "echo hello" with a CR LF line end, and the same with LF. *)
Definition crlf_script : string :=
  "echo hello" +:+ String "013"%char (String "010"%char EmptyString).


Definition fs_crlf : Host :=
  {| files := {[ userdata_path := Readable crlf_script ]};
     codec := decode_ascii |}.


Definition fs_missing : Host := {| files := ∅; codec := decode_ascii |}.

Definition scope0 : Scope :=
  {| scope_azs := ["ap-northeast-1a"; "ap-northeast-1c"; "ap-northeast-1d"];
     scope_ids := []; scope_stage := None |}.


Definition scope_one_zone : Scope :=
  {| scope_azs := ["ap-northeast-1a"]; scope_ids := [];
     scope_stage := None |}.

Definition world0 : World :=
  match evaluate fs0 scope0 "CdkappStack" with
  | inr w => w
  | inl _ => blank
  end.

Definition graph0 : Stack := root world0.

(** The evaluation on the host whose payload has a CR LF line end, and the
    graph in the environment that lists one zone twice. *)
Definition world_crlf : World :=
  match evaluate fs_crlf scope0 "CdkappStack" with
  | inr w => w
  | inl _ => blank
  end.


(** The rule that both the authored [add_ingress_rule] on [lb_sg] and the
    open listener ask for. *)
Definition http_from_anywhere : ec2.Rule :=
  {| ec2.peer := ec2.any_ipv4; ec2.connection := ec2.tcp 80 |}.

(** The image both instances are declared with. *)
Definition amzn_linux : ec2.MachineImage :=
  ec2.latest_amazon_linux ec2.AMAZON_LINUX_2 ec2.STANDARD ec2.HVM
    ec2.GENERAL_PURPOSE.

(** ** Notions for the shape of the graph *)

(** Whether a path names a construct of the graph: a construct declared
    directly in the stack, or a listener below a declared load
    balancer. *)
Definition declared (g : Stack) (p : Path) : bool :=
  match p with
  | [id] => bool_decide (id ∈ children g)
  | [lb; l] =>
      match load_balancers g !! lb with
      | Some b => bool_decide (is_Some (elbv2.listeners b !! l))
      | None => false
      end
  | _ => false
  end.

(** [before g a b]: the graph has the ordering edge from [a] to [b]. *)
Definition before (g : Stack) (a b : Path) : Prop :=
  (a, b) ∈ ordering_edges g.

(** The provisioning stage of a construct: the database cluster first,
    the listener last, everything else between them. *)
Definition stage (p : Path) : nat :=
  if bool_decide (p = ["MyDatabase"]) then 0
  else if bool_decide (p = ["MyLoadBalancer"; "Listener"]) then 2
  else 1.

(** An instance with other user data, and a stack under another name:
    used to say what an input of the evaluation does not influence. *)
Definition with_user_data (u : ec2.UserData) (i : ec2.Instance)
  : ec2.Instance :=
  {| ec2.instance_type := ec2.instance_type i;
     ec2.machine_image := ec2.machine_image i;
     ec2.instance_vpc := ec2.instance_vpc i;
     ec2.vpc_subnets := ec2.vpc_subnets i;
     ec2.availability_zone := ec2.availability_zone i;
     ec2.security_group := ec2.security_group i;
     ec2.user_data := u;
     ec2.role := ec2.role i |}.

Definition with_stack_name (n : string) (s : Stack) : Stack :=
  {| stack_name := n; stack_azs := stack_azs s;
     children := children s; vpcs := vpcs s;
     security_groups := security_groups s; clusters := clusters s;
     roles := roles s; instances := instances s;
     load_balancers := load_balancers s;
     ssm_parameters := ssm_parameters s; dependencies := dependencies s |}.

(** The world a successful evaluation ends in, as a function of what the
    evaluation consumed: the decoded payload [d], the first two
    availability zones, the remaining ones, the name of the stack and the
    ids declared in the scope.  It is obtained by running the declaration
    where the payload decodes to [d], and then giving the stack its name
    and the scope its ids. *)
Definition result (d : str) (az0 az1 : string) (rest : list string)
  (name : string) (ids : list string) : World :=
  match evaluate
          {| files := {[ userdata_path := Readable "" ]};
             codec := λ _, Some d |}
          {| scope_azs := az0 :: az1 :: rest; scope_ids := [];
             scope_stage := None |}
          "CdkappStack" with
  | inr w =>
      {| registered := ids; root := with_stack_name name (root w);
         opened := opened w; requested := requested w |}
  | inl _ => blank
  end.

Arguments result : simpl never.

(** * Properties *)

(** ** Running the declaration *)

Lemma translate_newlines_no_CR (s : str) :
  CR ∉ s → translate_newlines s = s.
Proof.
  induction s as [|c s IH]; [done|]. intros Hnotin. simpl.
  destruct (c =? CR)%N eqn:Hc.
  - apply N.eqb_eq in Hc. subst c. destruct Hnotin. left.
  - rewrite IH; [done|]. intros Hin. apply Hnotin. by right.
Qed.

Lemma read_text_inr fs path text :
  read_text fs path = inr text ↔
  ∃ bytes c, files fs !! path = Some (Readable bytes)
             ∧ codec fs bytes = Some c ∧ text = translate_newlines c.
Proof.
  unfold read_text. split.
  - destruct (files fs !! path) as [[bytes|e]|]; [|done..].
    destruct (codec fs bytes) as [c|] eqn:Hc; [|done].
    intros H. apply (inj inr) in H. subst text. by exists bytes, c.
  - intros (bytes & c & -> & -> & ->). done.
Qed.

Lemma constructible_dec scope id :
  constructible scope id ∨ ¬ constructible scope id.
Proof.
  unfold constructible.
  destruct (decide (id = "")) as [->|Hid]; [right; by intros [? _]|].
  destruct (decide (sanitize_id id ∈ scope_ids scope)) as [Hin|Hin];
    [right; by intros (_ & ? & _)|].
  destruct (valid_stack_name (stack_name_in scope id)) eqn:Hv;
    [by left|right; by intros (_ & _ & ?)].
Qed.

Section Run.

Variables (fs : Host) (scope : Scope) (id : string).

(** Line 15 fails: no stack. *)
Lemma evaluate_not_constructible :
  ¬ constructible scope id →
  evaluate fs scope id = inl RuntimeError
  ∨ evaluate fs scope id = inl (DuplicateConstruct (sanitize_id id)).
Proof.
  intros Hnot. unfold evaluate, __init__, Stack_init.
  destruct (decide (id = "")) as [Hid|Hid].
  { rewrite (bool_decide_eq_true_2 _ Hid). by left. }
  rewrite (bool_decide_eq_false_2 _ Hid).
  destruct (decide (sanitize_id id ∈ scope_ids scope)) as [Hin|Hin].
  { rewrite (bool_decide_eq_true_2 _ Hin). by right. }
  rewrite (bool_decide_eq_false_2 _ Hin).
  destruct (valid_stack_name (stack_name_in scope id)) eqn:Hv.
  { destruct Hnot. by repeat split. }
  by left.
Qed.

Section Constructible.

Hypothesis Hok : constructible scope id.

(** Line 88 fails when the environment has no availability zone. *)
Lemma evaluate_no_zone :
  scope_azs scope = [] → evaluate fs scope id = inl RuntimeError.
Proof.
  destruct Hok as (Hid & Hin & Hv). intros Hazs.
  unfold evaluate, __init__, Stack_init.
  rewrite (bool_decide_eq_false_2 _ Hid), (bool_decide_eq_false_2 _ Hin),
    Hv, Hazs.
  vm_compute. reflexivity.
Qed.

(** Line 121 fails when the payload cannot be read. *)
Lemma evaluate_unread e :
  scope_azs scope ≠ [] →
  read_text fs userdata_path = inl e →
  evaluate fs scope id = inl e.
Proof.
  destruct Hok as (Hid & Hin & Hv). intros Hazs Hread.
  unfold evaluate, __init__, Stack_init, open_read.
  rewrite (bool_decide_eq_false_2 _ Hid), (bool_decide_eq_false_2 _ Hin),
    Hv, Hread.
  destruct (scope_azs scope) as [|az0 rest]; [done|].
  vm_compute. reflexivity.
Qed.

(** Line 156 fails when there is one zone only. *)
Lemma evaluate_one_zone text az0 :
  scope_azs scope = [az0] →
  read_text fs userdata_path = inr text →
  evaluate fs scope id = inl IndexError.
Proof.
  destruct Hok as (Hid & Hin & Hv). intros Hazs Hread.
  unfold evaluate, __init__, Stack_init, open_read.
  rewrite (bool_decide_eq_false_2 _ Hid), (bool_decide_eq_false_2 _ Hin),
    Hv, Hread, Hazs.
  vm_compute. reflexivity.
Qed.

Lemma evaluate_run bytes c az0 az1 rest :
  files fs !! userdata_path = Some (Readable bytes) →
  codec fs bytes = Some c →
  scope_azs scope = az0 :: az1 :: rest →
  evaluate fs scope id
  = inr (result c az0 az1 rest (stack_name_in scope id)
           (scope_ids scope ++ [sanitize_id id])).
Proof.
  destruct Hok as (Hid & Hin & Hv). intros Hfile Hdec Hazs.
  unfold evaluate, __init__, Stack_init, open_read, read_text.
  rewrite (bool_decide_eq_false_2 _ Hid), (bool_decide_eq_false_2 _ Hin),
    Hv, Hfile, Hdec, Hazs.
  vm_compute. reflexivity.
Qed.

End Constructible.

(** Success means: the stack could be constructed, the payload was read
    and the environment has at least two availability zones. *)
Lemma evaluate_inr w :
  evaluate fs scope id = inr w →
  ∃ c az0 az1 rest,
    constructible scope id
    ∧ (∃ bytes, files fs !! userdata_path = Some (Readable bytes)
                ∧ codec fs bytes = Some c)
    ∧ scope_azs scope = az0 :: az1 :: rest
    ∧ w = result c az0 az1 rest (stack_name_in scope id)
            (scope_ids scope ++ [sanitize_id id]).
Proof.
  intros H.
  destruct (constructible_dec scope id) as [Hok|Hnot].
  2: { destruct (evaluate_not_constructible Hnot) as [He|He];
         rewrite He in H; done. }
  destruct (scope_azs scope) as [|az0 [|az1 rest]] eqn:Hazs.
  { by rewrite (evaluate_no_zone Hok Hazs) in H. }
  all: destruct (read_text fs userdata_path) as [e|text] eqn:Hread.
  - rewrite (evaluate_unread Hok e) in H; [done| |done].
    by rewrite Hazs.
  - by rewrite (evaluate_one_zone Hok text az0 Hazs Hread) in H.
  - rewrite (evaluate_unread Hok e) in H; [done| |done].
    by rewrite Hazs.
  - apply read_text_inr in Hread as (bytes & c & Hfile & Hdec & _).
    rewrite (evaluate_run Hok bytes c az0 az1 rest Hfile Hdec Hazs) in H.
    apply (inj inr) in H. exists c, az0, az1, rest. eauto 10.
Qed.

Lemma CdkappStack_evaluate g :
  CdkappStack fs scope id = inr g ↔
  ∃ w, evaluate fs scope id = inr w ∧ g = root w.
Proof.
  unfold CdkappStack.
  destruct (evaluate fs scope id) as [e|w]; split.
  - done.
  - by intros (w & ? & _).
  - intros Hg. apply (inj inr) in Hg. eauto.
  - intros (w' & Hw & ->). apply (inj inr) in Hw. by subst.
Qed.

Lemma CdkappStack_inr g :
  CdkappStack fs scope id = inr g →
  ∃ c az0 az1 rest name ids,
    (∃ bytes, files fs !! userdata_path = Some (Readable bytes)
              ∧ codec fs bytes = Some c)
    ∧ scope_azs scope = az0 :: az1 :: rest
    ∧ g = root (result c az0 az1 rest name ids).
Proof.
  intros (w & Hw & ->)%CdkappStack_evaluate.
  destruct (evaluate_inr w Hw)
    as (c & az0 & az1 & rest & _ & Hread & Hazs & ->).
  eauto 10.
Qed.

End Run.


(** ** The stores of the produced graph *)

Section Result.

Variables (c : str) (az0 az1 : string) (rest : list string)
  (name : string) (ids : list string).

Local Abbreviation g := (root (result c az0 az1 rest name ids)).

Lemma result_opened :
  opened (result c az0 az1 rest name ids) = [userdata_path].
Proof. vm_compute. reflexivity. Qed.



Lemma result_requested :
  requested (result c az0 az1 rest name ids) =
  [ ("lb_sg", http_from_anywhere);
    ("ec2_sg", {| ec2.peer := ec2.sg_peer "lb_sg";
                  ec2.connection := ec2.tcp 8443 |});
    ("rds_sg", {| ec2.peer := ec2.sg_peer "ec2_sg";
                  ec2.connection := ec2.tcp 3306 |});
    ("rds_sg", {| ec2.peer := ec2.sg_peer "ec2_sg";
                  ec2.connection := ec2.tcp 22 |});
    ("lb_sg", http_from_anywhere) ].
Proof. vm_compute. reflexivity. Qed.

Lemma result_vpcs :
  vpcs g =
  {[ "MyVPC" :=
       {| ec2.vpc_id := "MyVPC"; ec2.ip_addresses := "10.10.0.0/16";
          ec2.nat_gateways := 1;
          ec2.subnet_configuration :=
            [ {| ec2.subnet_type := ec2.PUBLIC; ec2.name := "Public";
                 ec2.cidr_mask := 24 |};
              {| ec2.subnet_type := ec2.PRIVATE_WITH_EGRESS;
                 ec2.name := "PrivateWithEgress"; ec2.cidr_mask := 24 |};
              {| ec2.subnet_type := ec2.PRIVATE_ISOLATED; ec2.name := "RDS";
                 ec2.cidr_mask := 24 |} ];
          ec2.availability_zones := take 3 (az0 :: az1 :: rest) |} ]}.
Proof. vm_compute. reflexivity. Qed.

Lemma result_security_groups :
  security_groups g =
  {[ "lb_sg" :=
       {| ec2.sg_vpc := "MyVPC"; ec2.allow_all_outbound := true;
          ec2.ingress := [http_from_anywhere];
          ec2.egress := [ALLOW_ALL_RULE] |};
     "ec2_sg" :=
       {| ec2.sg_vpc := "MyVPC"; ec2.allow_all_outbound := true;
          ec2.ingress :=
            [ {| ec2.peer := ec2.sg_peer "lb_sg";
                 ec2.connection := ec2.tcp 8443 |} ];
          ec2.egress := [ALLOW_ALL_RULE] |};
     "rds_sg" :=
       {| ec2.sg_vpc := "MyVPC"; ec2.allow_all_outbound := true;
          ec2.ingress :=
            [ {| ec2.peer := ec2.sg_peer "ec2_sg";
                 ec2.connection := ec2.tcp 3306 |};
              {| ec2.peer := ec2.sg_peer "ec2_sg";
                 ec2.connection := ec2.tcp 22 |} ];
          ec2.egress := [ALLOW_ALL_RULE] |} ]}.
Proof. vm_compute. reflexivity. Qed.

Lemma result_clusters :
  clusters g =
  {[ "MyDatabase" :=
       {| rds.engine := rds.aurora_mysql rds.VER_3_04_0;
          rds.credentials :=
            rds.from_password "testuser" (SecretValue_literal "password1234!");
          rds.default_database_name := "Population";
          rds.instance_props :=
            {| rds.props_vpc := "MyVPC"; rds.security_groups := ["rds_sg"];
               rds.vpc_subnets :=
                 {| ec2.selected_type := ec2.PRIVATE_ISOLATED |} |};
          rds.instances := 1 |} ]}.
Proof. vm_compute. reflexivity. Qed.

Lemma result_instances :
  instances g =
  {[ "MyInstance" :=
       {| ec2.instance_type := {| ec2.instance_type_identifier := "t2.small" |};
          ec2.machine_image := amzn_linux; ec2.instance_vpc := "MyVPC";
          ec2.vpc_subnets := {| ec2.selected_type := ec2.PRIVATE_WITH_EGRESS |};
          ec2.availability_zone := az0; ec2.security_group := "ec2_sg";
          ec2.user_data := ec2.custom (translate_newlines c); ec2.role := "ec2_instance_role" |};
     "MyInstance2" :=
       {| ec2.instance_type := {| ec2.instance_type_identifier := "t2.small" |};
          ec2.machine_image := amzn_linux; ec2.instance_vpc := "MyVPC";
          ec2.vpc_subnets := {| ec2.selected_type := ec2.PRIVATE_WITH_EGRESS |};
          ec2.availability_zone := az1; ec2.security_group := "ec2_sg";
          ec2.user_data := ec2.custom (translate_newlines c); ec2.role := "ec2_instance_role2" |} ]}.
Proof. vm_compute. reflexivity. Qed.

Lemma result_load_balancers :
  load_balancers g =
  {[ "MyLoadBalancer" :=
       {| elbv2.lb_vpc := "MyVPC"; elbv2.internet_facing := true;
          elbv2.security_group := "lb_sg";
          elbv2.listeners :=
            {[ "Listener" :=
                 {| elbv2.port := 80; elbv2.open := true;
                    elbv2.target_groups :=
                      {[ "Targets" :=
                           {| elbv2.group_port := 80;
                              elbv2.targets := [] |} ]} |} ]} |} ]}.
Proof. vm_compute. reflexivity. Qed.

Lemma result_dependencies :
  dependencies g =
  [ (["MyInstance"], ["MyDatabase"]);
    (["MyLoadBalancer"; "Listener"], ["MyInstance"]);
    (["MyLoadBalancer"; "Listener"], ["MyInstance2"]) ].
Proof. vm_compute. reflexivity. Qed.

Lemma result_instances_inv iid i :
  instances g !! iid = Some i →
  ec2.vpc_subnets i = {| ec2.selected_type := ec2.PRIVATE_WITH_EGRESS |}
  ∧ ec2.security_group i = "ec2_sg".
Proof.
  rewrite result_instances. intros H.
  apply lookup_insert_Some in H as [[_ <-]|[_ H]]; [done|].
  apply lookup_singleton_Some in H as [_ <-]. done.
Qed.

Lemma result_load_balancers_inv lid l :
  load_balancers g !! lid = Some l →
  elbv2.internet_facing l = true ∧ elbv2.security_group l = "lb_sg".
Proof.
  rewrite result_load_balancers. intros H.
  apply lookup_singleton_Some in H as [_ <-]. done.
Qed.

Lemma result_security_groups_inv sid sg :
  security_groups g !! sid = Some sg →
  ec2.allow_all_outbound sg = true ∧ ec2.egress sg = [ALLOW_ALL_RULE].
Proof.
  rewrite result_security_groups. intros H.
  apply lookup_insert_Some in H as [[_ <-]|[_ H]]; [done|].
  apply lookup_insert_Some in H as [[_ <-]|[_ H]]; [done|].
  apply lookup_singleton_Some in H as [_ <-]. done.
Qed.

End Result.

(** ** Traffic through rule lists *)

Lemma port_matches_tcp p proto port :
  port_matches (ec2.tcp p) proto port = true ↔ proto = TCP ∧ port = p.
Proof.
  destruct proto; simpl.
  - rewrite bool_decide_eq_true. split; [by intros ->|by intros [_ ->]].
  - split; [done|by intros [? _]].
  - split; [done|by intros [? _]].
Qed.

Lemma admits_true rules e proto port :
  admits rules e proto port = true ↔
  ∃ r, r ∈ rules ∧ peer_matches (ec2.peer r) e = true
       ∧ port_matches (ec2.connection r) proto port = true.
Proof.
  unfold admits. rewrite existsb_exists. split.
  - intros (r & Hin & Hm). apply andb_true_iff in Hm.
    exists r. by rewrite list_elem_of_In.
  - intros (r & Hin & Hp & Hc). exists r.
    rewrite <- list_elem_of_In, Hp, Hc. done.
Qed.

Lemma admits_allow_all e proto port :
  admits [ALLOW_ALL_RULE] e proto port = true.
Proof. reflexivity. Qed.

(** A rule the group already has is dropped by [add_rule]. *)
Lemma add_rule_present r sg : r ∈ ec2.ingress sg → add_rule r sg = sg.
Proof. intros Hin. unfold add_rule. by rewrite bool_decide_eq_true_2. Qed.

(** An open listener asks the security group of its load balancer for
    one rule: any IPv4 address on the listener's port. *)
Lemma add_listener_open lb lid port l w :
  load_balancers (root w) !! lb = Some l →
  ∃ w', add_listener lb lid port true w = inr ((lb, lid), w')
        ∧ security_groups (root w') =
            alter (add_rule {| ec2.peer := ec2.any_ipv4;
                               ec2.connection := ec2.tcp port |})
              (elbv2.security_group l) (security_groups (root w))
        ∧ opened w' = opened w.
Proof.
  intros Hl. eexists. split; [|split].
  - unfold add_listener, bind, modify, connections, gets, ret. simpl.
    rewrite lookup_alter_eq, Hl. simpl. reflexivity.
  - reflexivity.
  - reflexivity.
Qed.

(** ** The claims *)

(** C1, on the code.  The produced graph has three ordering edges:
    database cluster before compute node A, node A before the listener,
    node B before the listener.  No edge runs in the reverse direction of
    these, and the edge "database cluster before compute node B" is not
    there: [add_dependency(cluster)] is called on [ec2_instance] only. *)
Theorem ordering_edges_of_stack fs scope id g :
  CdkappStack fs scope id = inr g →
  ordering_edges g =
    [ (["MyDatabase"], ["MyInstance"]);
      (["MyInstance"], ["MyLoadBalancer"; "Listener"]);
      (["MyInstance2"], ["MyLoadBalancer"; "Listener"]) ]
  ∧ ((["MyDatabase"], ["MyInstance2"]) ∉ ordering_edges g)
  ∧ (∀ a b, (a, b) ∈ ordering_edges g → (b, a) ∉ ordering_edges g).
Proof.
  intros (c & az0 & az1 & rest & name & ids & _ & _ & ->)%CdkappStack_inr.
  unfold ordering_edges. rewrite result_dependencies. simpl.
  split; [done|]. split.
  - intros Hin. rewrite !elem_of_cons, elem_of_nil in Hin.
    destruct Hin as [H|[H|[H|[]]]]; discriminate H.
  - intros a b Hin Hrev. rewrite !elem_of_cons, elem_of_nil in Hin, Hrev.
    destruct Hin as [H|[H|[H|[]]]]; simplify_eq;
      destruct Hrev as [H|[H|[H|[]]]]; discriminate H.
Qed.

Lemma ordering_edges_of_stack_witness :
  CdkappStack fs0 scope0 "CdkappStack" = inr graph0
  ∧ ordering_edges graph0 =
      [ (["MyDatabase"], ["MyInstance"]);
        (["MyInstance"], ["MyLoadBalancer"; "Listener"]);
        (["MyInstance2"], ["MyLoadBalancer"; "Listener"]) ]
  ∧ ((["MyDatabase"], ["MyInstance2"]) ∉ ordering_edges graph0)
  ∧ (∀ a b, (a, b) ∈ ordering_edges graph0 → (b, a) ∉ ordering_edges graph0).
Proof.
  split; [vm_compute; reflexivity|].
  apply (ordering_edges_of_stack fs0 scope0 "CdkappStack").
  vm_compute; reflexivity.
Defined.

(** C2, on the code.  The load balancer has exactly one listener, on
    port 80, with one target group on port 80; no target is registered in
    that group, so neither compute node is in the listener's target
    pool. *)
Theorem listener_target_pool fs scope id g :
  CdkappStack fs scope id = inr g →
  ∃ lb listener,
    load_balancers g = {[ "MyLoadBalancer" := lb ]}
    ∧ elbv2.listeners lb = {[ "Listener" := listener ]}
    ∧ elbv2.port listener = 80%Z
    ∧ elbv2.target_groups listener =
        {[ "Targets" := {| elbv2.group_port := 80; elbv2.targets := [] |} ]}
    ∧ ∀ tid tg, elbv2.target_groups listener !! tid = Some tg →
        ("MyInstance" ∉ elbv2.targets tg) ∧ ("MyInstance2" ∉ elbv2.targets tg).
Proof.
  intros (c & az0 & az1 & rest & name & ids & _ & _ & ->)%CdkappStack_inr.
  rewrite result_load_balancers. eexists _, _.
  split; [reflexivity|]. simpl. split; [reflexivity|].
  split; [reflexivity|]. split; [reflexivity|].
  intros tid tg Htg. simpl in Htg.
  apply lookup_singleton_Some in Htg as [_ <-]. simpl.
  split; apply not_elem_of_nil.
Qed.

Lemma listener_target_pool_witness :
  CdkappStack fs0 scope0 "CdkappStack" = inr graph0
  ∧ ∃ lb listener,
      load_balancers graph0 = {[ "MyLoadBalancer" := lb ]}
      ∧ elbv2.listeners lb = {[ "Listener" := listener ]}
      ∧ elbv2.port listener = 80%Z
      ∧ elbv2.target_groups listener =
          {[ "Targets" := {| elbv2.group_port := 80; elbv2.targets := [] |} ]}
      ∧ ∀ tid tg, elbv2.target_groups listener !! tid = Some tg →
          ("MyInstance" ∉ elbv2.targets tg) ∧ ("MyInstance2" ∉ elbv2.targets tg).
Proof.
  split; [vm_compute; reflexivity|].
  apply (listener_target_pool fs0 scope0 "CdkappStack").
  vm_compute; reflexivity.
Defined.

(** C3.  The graph has exactly three security groups.  The load-balancer
    group lets in any IPv4 address on TCP port 80 and nothing else; the
    compute group lets in the load-balancer group on TCP port 8443 and
    nothing else; the database group lets in the compute group on TCP
    ports 3306 and 22 and nothing else.  Whatever reaches the database
    group is attached to the compute group. *)
Theorem security_groups_allow_chain fs scope id g :
  CdkappStack fs scope id = inr g →
  ∃ lb_sg ec2_sg rds_sg,
    dom (security_groups g) = ({[ "lb_sg"; "ec2_sg"; "rds_sg" ]} : gset string)
    ∧ security_groups g !! "lb_sg" = Some lb_sg
    ∧ security_groups g !! "ec2_sg" = Some ec2_sg
    ∧ security_groups g !! "rds_sg" = Some rds_sg
    ∧ ec2.ingress lb_sg =
        [ {| ec2.peer := ec2.any_ipv4; ec2.connection := ec2.tcp 80 |} ]
    ∧ ec2.ingress ec2_sg =
        [ {| ec2.peer := ec2.sg_peer "lb_sg";
             ec2.connection := ec2.tcp 8443 |} ]
    ∧ ec2.ingress rds_sg =
        [ {| ec2.peer := ec2.sg_peer "ec2_sg";
             ec2.connection := ec2.tcp 3306 |};
          {| ec2.peer := ec2.sg_peer "ec2_sg";
             ec2.connection := ec2.tcp 22 |} ]
    ∧ ∀ e proto port,
        admits (ec2.ingress rds_sg) e proto port = true →
        "ec2_sg" ∈ groups e ∧ proto = TCP ∧ (port = 3306 ∨ port = 22)%Z.
Proof.
  intros (c & az0 & az1 & rest & name & ids & _ & _ & ->)%CdkappStack_inr.
  rewrite result_security_groups. eexists _, _, _.
  split; [vm_compute; reflexivity|].
  split; [vm_compute; reflexivity|].
  split; [vm_compute; reflexivity|].
  split; [vm_compute; reflexivity|].
  split; [reflexivity|]. split; [reflexivity|]. split; [reflexivity|].
  intros e proto port (r & Hin & Hp & Hc)%admits_true. simpl in Hin.
  rewrite !elem_of_cons, elem_of_nil in Hin.
  destruct Hin as [->|[->|[]]]; simpl in Hp, Hc;
    apply bool_decide_eq_true in Hp; apply port_matches_tcp in Hc;
    destruct Hc as [-> ->]; auto.
Qed.

Lemma security_groups_allow_chain_witness :
  CdkappStack fs0 scope0 "CdkappStack" = inr graph0
  ∧ ∃ lb_sg ec2_sg rds_sg,
      dom (security_groups graph0)
        = ({[ "lb_sg"; "ec2_sg"; "rds_sg" ]} : gset string)
      ∧ security_groups graph0 !! "lb_sg" = Some lb_sg
      ∧ security_groups graph0 !! "ec2_sg" = Some ec2_sg
      ∧ security_groups graph0 !! "rds_sg" = Some rds_sg
      ∧ ec2.ingress lb_sg =
          [ {| ec2.peer := ec2.any_ipv4; ec2.connection := ec2.tcp 80 |} ]
      ∧ ec2.ingress ec2_sg =
          [ {| ec2.peer := ec2.sg_peer "lb_sg";
               ec2.connection := ec2.tcp 8443 |} ]
      ∧ ec2.ingress rds_sg =
          [ {| ec2.peer := ec2.sg_peer "ec2_sg";
               ec2.connection := ec2.tcp 3306 |};
            {| ec2.peer := ec2.sg_peer "ec2_sg";
               ec2.connection := ec2.tcp 22 |} ]
      ∧ ∀ e proto port,
          admits (ec2.ingress rds_sg) e proto port = true →
          "ec2_sg" ∈ groups e ∧ proto = TCP ∧ (port = 3306 ∨ port = 22)%Z.
Proof.
  split; [vm_compute; reflexivity|].
  apply (security_groups_allow_chain fs0 scope0 "CdkappStack").
  vm_compute; reflexivity.
Defined.




(** C5, as stated, fails on a payload with a CR LF line end: the user data
    of a compute node is not the content of the file. *)
Lemma boot_payload_not_the_file_content :
  ∃ a c,
    evaluate fs_crlf scope0 "CdkappStack" = inr world_crlf
    ∧ files fs_crlf !! "cdkapp/userdata.sh" = Some (Readable crlf_script)
    ∧ codec fs_crlf crlf_script = Some c
    ∧ instances (root world_crlf) !! "MyInstance" = Some a
    ∧ ec2.render (ec2.user_data a) ≠ c.
Proof.
  eexists _, _.
  split; [vm_compute; reflexivity|].
  split; [vm_compute; reflexivity|].
  split; [vm_compute; reflexivity|].
  split; [vm_compute; reflexivity|].
  vm_compute. discriminate.
Qed.

(** C5, amended.  A successful evaluation opened exactly one file, once:
    "cdkapp/userdata.sh".  It read it as text: the bytes of the file
    decoded by the locale's codec, with every CR LF and lone CR turned
    into LF.  The user data of both compute nodes renders to that text,
    which is the decoded content itself when that holds no CR. *)
Theorem boot_payload_read_once_shared fs scope id w :
  evaluate fs scope id = inr w →
  opened w = ["cdkapp/userdata.sh"]
  ∧ ∃ bytes c a b,
      files fs !! "cdkapp/userdata.sh" = Some (Readable bytes)
      ∧ codec fs bytes = Some c
      ∧ instances (root w) !! "MyInstance" = Some a
      ∧ instances (root w) !! "MyInstance2" = Some b
      ∧ ec2.render (ec2.user_data a) = translate_newlines c
      ∧ ec2.render (ec2.user_data b) = translate_newlines c
      ∧ (CR ∉ c → ec2.render (ec2.user_data a) = c
                  ∧ ec2.render (ec2.user_data b) = c).
Proof.
  intros (c & az0 & az1 & rest & _ & (bytes & Hfile & Hdec) & _ & ->)
    %evaluate_inr.
  split; [apply result_opened|].
  rewrite result_instances. exists bytes, c. eexists _, _.
  split; [exact Hfile|]. split; [exact Hdec|].
  split; [vm_compute; reflexivity|].
  split; [vm_compute; reflexivity|].
  split; [reflexivity|]. split; [reflexivity|].
  intros Hcr. cbn [ec2.render ec2.user_data].
  by rewrite translate_newlines_no_CR.
Qed.

Lemma boot_payload_read_once_shared_witness :
  evaluate fs0 scope0 "CdkappStack" = inr world0
  ∧ opened world0 = ["cdkapp/userdata.sh"]
  ∧ ∃ bytes c a b,
      files fs0 !! "cdkapp/userdata.sh" = Some (Readable bytes)
      ∧ codec fs0 bytes = Some c
      ∧ instances (root world0) !! "MyInstance" = Some a
      ∧ instances (root world0) !! "MyInstance2" = Some b
      ∧ ec2.render (ec2.user_data a) = translate_newlines c
      ∧ ec2.render (ec2.user_data b) = translate_newlines c
      ∧ (CR ∉ c → ec2.render (ec2.user_data a) = c
                  ∧ ec2.render (ec2.user_data b) = c).
Proof.
  split; [vm_compute; reflexivity|].
  apply (boot_payload_read_once_shared fs0 scope0 "CdkappStack").
  vm_compute; reflexivity.
Defined.

(** C6.  When "cdkapp/userdata.sh" is missing or cannot be opened, the
    evaluation ends in an error and no resource graph comes out of it,
    whatever the scope and the construct id.  Where the stack itself can
    be constructed and the environment has an availability zone, that
    error is the one [open] raises. *)
Theorem missing_payload_fails fs scope id :
  files fs !! "cdkapp/userdata.sh" = None
  ∨ (∃ e, files fs !! "cdkapp/userdata.sh" = Some (Refused e)) →
  (∃ e, CdkappStack fs scope id = inl e)
  ∧ (∀ g, CdkappStack fs scope id ≠ inr g)
  ∧ (constructible scope id → scope_azs scope ≠ [] →
     ∃ e, read_text fs "cdkapp/userdata.sh" = inl e
          ∧ CdkappStack fs scope id = inl e
          ∧ (e = FileNotFoundError "cdkapp/userdata.sh"
             ∨ ∃ o, e = os_error o "cdkapp/userdata.sh")).
Proof.
  intros H.
  assert (∀ g, CdkappStack fs scope id ≠ inr g) as Hno.
  { intros g (c & az0 & az1 & rest & name & ids & (bytes & Hfile & _) & _)
      %CdkappStack_inr.
    change userdata_path with "cdkapp/userdata.sh" in Hfile.
    destruct H as [H|[e H]]; rewrite H in Hfile; discriminate. }
  split; [|split; [exact Hno|]].
  - destruct (CdkappStack fs scope id) as [e|g] eqn:Hg; [eauto|].
    by destruct (Hno g).
  - intros Hok Hazs.
    assert (∃ e, read_text fs userdata_path = inl e
                 ∧ (e = FileNotFoundError userdata_path
                    ∨ ∃ o, e = os_error o userdata_path))
      as (e & Hread & He).
    { unfold read_text.
      change userdata_path with "cdkapp/userdata.sh".
      destruct H as [H|[o H]]; rewrite H; eauto. }
    exists e. split; [exact Hread|]. split; [|exact He].
    unfold CdkappStack.
    by rewrite (evaluate_unread fs scope id Hok e Hazs Hread).
Qed.

Lemma missing_payload_fails_witness :
  (∃ e, CdkappStack fs_missing scope0 "CdkappStack" = inl e)
  ∧ (∀ g, CdkappStack fs_missing scope0 "CdkappStack" ≠ inr g)
  ∧ (constructible scope0 "CdkappStack" → scope_azs scope0 ≠ [] →
     ∃ e, read_text fs_missing "cdkapp/userdata.sh" = inl e
          ∧ CdkappStack fs_missing scope0 "CdkappStack" = inl e
          ∧ (e = FileNotFoundError "cdkapp/userdata.sh"
             ∨ ∃ o, e = os_error o "cdkapp/userdata.sh")).
Proof.
  apply (missing_payload_fails fs_missing scope0 "CdkappStack").
  left. vm_compute. reflexivity.
Defined.




(** C8.  The graph has one database cluster, "MyDatabase".  It is the only
    resource whose subnet class is the isolated one; it is bound to the
    database security group; its one logical database is "Population";
    its credentials are the literal pair "testuser" / "password1234!",
    not a reference into a secret store. *)
Theorem database_cluster_isolated_literal_credentials fs scope id g :
  CdkappStack fs scope id = inr g →
  ∃ cluster,
    clusters g = {[ "MyDatabase" := cluster ]}
    ∧ (∀ r, subnet_class g r = Some ec2.PRIVATE_ISOLATED
            ↔ r = Cluster "MyDatabase")
    ∧ rds.security_groups (rds.instance_props cluster) = ["rds_sg"]
    ∧ rds.default_database_name cluster = "Population"
    ∧ rds.credentials cluster =
        rds.from_password "testuser" (SecretValue_literal "password1234!").
Proof.
  intros (c & az0 & az1 & rest & name & ids & _ & _ & ->)%CdkappStack_inr.
  pose proof (result_clusters c az0 az1 rest name ids) as Hcl.
  pose proof (result_instances_inv c az0 az1 rest name ids) as Hins.
  pose proof (result_load_balancers_inv c az0 az1 rest name ids) as Hlbs.
  set (g := root (result c az0 az1 rest name ids)) in *. clearbody g.
  eexists. split; [exact Hcl|].
  split; [|by repeat split].
  intros [cid|iid|lid]; unfold subnet_class.
  - rewrite Hcl.
    destruct (decide (cid = "MyDatabase")) as [->|Hne].
    + by rewrite lookup_singleton_eq.
    + rewrite lookup_singleton_ne by done. simpl.
      split; [done|]. intros [= Heq]. by destruct Hne.
  - destruct (instances g !! iid) as [i|] eqn:Hi; simpl; [|done].
    apply Hins in Hi as [-> _]. done.
  - destruct (load_balancers g !! lid) as [l|] eqn:Hl; simpl; [|done].
    apply Hlbs in Hl as [-> _]. done.
Qed.

Lemma database_cluster_isolated_literal_credentials_witness :
  CdkappStack fs0 scope0 "CdkappStack" = inr graph0
  ∧ ∃ cluster,
      clusters graph0 = {[ "MyDatabase" := cluster ]}
      ∧ (∀ r, subnet_class graph0 r = Some ec2.PRIVATE_ISOLATED
              ↔ r = Cluster "MyDatabase")
      ∧ rds.security_groups (rds.instance_props cluster) = ["rds_sg"]
      ∧ rds.default_database_name cluster = "Population"
      ∧ rds.credentials cluster =
          rds.from_password "testuser" (SecretValue_literal "password1234!").
Proof.
  split; [vm_compute; reflexivity|].
  apply (database_cluster_isolated_literal_credentials fs0 scope0
           "CdkappStack").
  vm_compute; reflexivity.
Defined.

(** C9.  Each of the three security groups of the graph is declared with
    allow-all-outbound, and its outbound rules let through every
    protocol and port to every IPv4 destination.  So does every group a
    declared resource is attached to; the database cluster is attached to
    the database group alone. *)
Theorem all_groups_allow_all_outbound fs scope id g :
  CdkappStack fs scope id = inr g →
  dom (security_groups g) = ({[ "lb_sg"; "ec2_sg"; "rds_sg" ]} : gset string)
  ∧ (∀ sid sg, security_groups g !! sid = Some sg →
       ec2.allow_all_outbound sg = true
       ∧ ∀ e proto port, admits (ec2.egress sg) e proto port = true)
  ∧ attached_groups g (Cluster "MyDatabase") = ["rds_sg"]
  ∧ (∀ r sid, sid ∈ attached_groups g r →
       ∃ sg, security_groups g !! sid = Some sg
             ∧ ec2.allow_all_outbound sg = true
             ∧ ∀ e proto port, admits (ec2.egress sg) e proto port = true).
Proof.
  intros (c & az0 & az1 & rest & name & ids & _ & _ & ->)%CdkappStack_inr.
  pose proof (result_security_groups c az0 az1 rest name ids) as Hsgs.
  pose proof (result_security_groups_inv c az0 az1 rest name ids) as Hsgi.
  pose proof (result_clusters c az0 az1 rest name ids) as Hcl.
  pose proof (result_instances_inv c az0 az1 rest name ids) as Hins.
  pose proof (result_load_balancers_inv c az0 az1 rest name ids) as Hlbs.
  set (g := root (result c az0 az1 rest name ids)) in *. clearbody g.
  assert (∀ sid sg, security_groups g !! sid = Some sg →
    ec2.allow_all_outbound sg = true
    ∧ ∀ e proto port, admits (ec2.egress sg) e proto port = true) as Hall.
  { intros sid sg [Hout Heg]%Hsgi.
    split; [done|]. intros e proto port. rewrite Heg.
    apply admits_allow_all. }
  split; [rewrite Hsgs; vm_compute; reflexivity|].
  split; [exact Hall|].
  split; [unfold attached_groups; rewrite Hcl; reflexivity|].
  assert (∀ sid, sid = "rds_sg" ∨ sid = "ec2_sg" ∨ sid = "lb_sg" →
    is_Some (security_groups g !! sid)) as Hdecl.
  { rewrite Hsgs. intros sid [-> | [-> | ->]]; vm_compute; eauto. }
  assert (∀ sid, sid = "rds_sg" ∨ sid = "ec2_sg" ∨ sid = "lb_sg" →
    ∃ sg, security_groups g !! sid = Some sg
          ∧ ec2.allow_all_outbound sg = true
          ∧ ∀ e proto port, admits (ec2.egress sg) e proto port = true)
    as Hgroup.
  { intros sid [sg Hsg]%Hdecl. exists sg. split; [done|]. by apply (Hall sid). }
  clear Hsgs Hsgi.
  intros [cid|iid|lid] sid; unfold attached_groups.
  - rewrite Hcl.
    destruct (decide (cid = "MyDatabase")) as [->|Hne].
    + rewrite lookup_singleton_eq. simpl.
      intros ->%list_elem_of_singleton. apply Hgroup. by left.
    + rewrite lookup_singleton_ne by done. by intros ?%elem_of_nil.
  - destruct (instances g !! iid) as [i|] eqn:Hi; [|by intros ?%elem_of_nil].
    apply Hins in Hi as [_ ->].
    intros ->%list_elem_of_singleton. apply Hgroup. right. by left.
  - destruct (load_balancers g !! lid) as [l|] eqn:Hl;
      [|by intros ?%elem_of_nil].
    apply Hlbs in Hl as [_ ->].
    intros ->%list_elem_of_singleton. apply Hgroup. right. by right.
Qed.

Lemma all_groups_allow_all_outbound_witness :
  CdkappStack fs0 scope0 "CdkappStack" = inr graph0
  ∧ dom (security_groups graph0)
    = ({[ "lb_sg"; "ec2_sg"; "rds_sg" ]} : gset string)
  ∧ (∀ sid sg, security_groups graph0 !! sid = Some sg →
       ec2.allow_all_outbound sg = true
       ∧ ∀ e proto port, admits (ec2.egress sg) e proto port = true)
  ∧ attached_groups graph0 (Cluster "MyDatabase") = ["rds_sg"]
  ∧ (∀ r sid, sid ∈ attached_groups graph0 r →
       ∃ sg, security_groups graph0 !! sid = Some sg
             ∧ ec2.allow_all_outbound sg = true
             ∧ ∀ e proto port, admits (ec2.egress sg) e proto port = true).
Proof.
  split; [vm_compute; reflexivity|].
  apply (all_groups_allow_all_outbound fs0 scope0 "CdkappStack").
  vm_compute; reflexivity.
Defined.

(** C10, as stated, fails on the sample evaluation: the load-balancer
    group does not hold two inbound grants. *)
Lemma open_listener_two_grants_refuted :
  CdkappStack fs0 scope0 "CdkappStack" = inr graph0
  ∧ ¬ ∃ sg, security_groups graph0 !! "lb_sg" = Some sg
            ∧ length (ec2.ingress sg) = 2
            ∧ Forall (λ r, ec2.connection r = ec2.tcp 80) (ec2.ingress sg).
Proof.
  split; [vm_compute; reflexivity|].
  intros (sg & Hsg & Hlen & _).
  assert (security_groups graph0 !! "lb_sg"
          = Some {| ec2.sg_vpc := "MyVPC"; ec2.allow_all_outbound := true;
                    ec2.ingress := [http_from_anywhere];
                    ec2.egress := [ALLOW_ALL_RULE] |}) as Hlb
    by (vm_compute; reflexivity).
  rewrite Hlb in Hsg. apply (inj Some) in Hsg. subst sg.
  simpl in Hlen. discriminate Hlen.
Qed.

(** C10, amended.  Five inbound rules are asked of security groups during
    the evaluation: the four the declaration authors, the first of them
    "any IPv4 address, TCP port 80" of the load-balancer group, and then,
    because the listener is declared open, the same rule of the same
    group once more.  The group drops the duplicate: its inbound set
    holds that one grant, and lets traffic in on TCP port 80 only. *)
Theorem open_listener_grant_absorbed fs scope id w :
  evaluate fs scope id = inr w →
  requested w =
    [ ("lb_sg", {| ec2.peer := ec2.any_ipv4; ec2.connection := ec2.tcp 80 |});
      ("ec2_sg", {| ec2.peer := ec2.sg_peer "lb_sg";
                    ec2.connection := ec2.tcp 8443 |});
      ("rds_sg", {| ec2.peer := ec2.sg_peer "ec2_sg";
                    ec2.connection := ec2.tcp 3306 |});
      ("rds_sg", {| ec2.peer := ec2.sg_peer "ec2_sg";
                    ec2.connection := ec2.tcp 22 |});
      ("lb_sg", {| ec2.peer := ec2.any_ipv4; ec2.connection := ec2.tcp 80 |}) ]
  ∧ ∃ lb listener sg,
      load_balancers (root w) !! "MyLoadBalancer" = Some lb
      ∧ elbv2.listeners lb !! "Listener" = Some listener
      ∧ elbv2.open listener = true
      ∧ elbv2.port listener = 80%Z
      ∧ elbv2.security_group lb = "lb_sg"
      ∧ security_groups (root w) !! "lb_sg" = Some sg
      ∧ ec2.ingress sg =
          [ {| ec2.peer := ec2.any_ipv4; ec2.connection := ec2.tcp 80 |} ]
      ∧ add_rule {| ec2.peer := ec2.any_ipv4;
                    ec2.connection := ec2.tcp (elbv2.port listener) |} sg = sg
      ∧ ∀ e proto port,
          admits (ec2.ingress sg) e proto port = true →
          proto = TCP ∧ port = 80%Z.
Proof.
  intros (c & az0 & az1 & rest & _ & _ & _ & ->)%evaluate_inr.
  split; [apply result_requested|].
  rewrite result_load_balancers, result_security_groups.
  eexists _, _, _.
  split; [vm_compute; reflexivity|].
  split; [vm_compute; reflexivity|].
  split; [reflexivity|]. split; [reflexivity|]. split; [reflexivity|].
  split; [vm_compute; reflexivity|].
  split; [reflexivity|].
  split; [apply add_rule_present; simpl; left|].
  intros e proto port (r & Hin & _ & Hc)%admits_true. simpl in Hin.
  apply list_elem_of_singleton in Hin as ->.
  by apply port_matches_tcp in Hc.
Qed.

Lemma open_listener_grant_absorbed_witness :
  evaluate fs0 scope0 "CdkappStack" = inr world0
  ∧ requested world0 =
    [ ("lb_sg", {| ec2.peer := ec2.any_ipv4; ec2.connection := ec2.tcp 80 |});
      ("ec2_sg", {| ec2.peer := ec2.sg_peer "lb_sg";
                    ec2.connection := ec2.tcp 8443 |});
      ("rds_sg", {| ec2.peer := ec2.sg_peer "ec2_sg";
                    ec2.connection := ec2.tcp 3306 |});
      ("rds_sg", {| ec2.peer := ec2.sg_peer "ec2_sg";
                    ec2.connection := ec2.tcp 22 |});
      ("lb_sg", {| ec2.peer := ec2.any_ipv4; ec2.connection := ec2.tcp 80 |}) ]
  ∧ ∃ lb listener sg,
      load_balancers (root world0) !! "MyLoadBalancer" = Some lb
      ∧ elbv2.listeners lb !! "Listener" = Some listener
      ∧ elbv2.open listener = true
      ∧ elbv2.port listener = 80%Z
      ∧ elbv2.security_group lb = "lb_sg"
      ∧ security_groups (root world0) !! "lb_sg" = Some sg
      ∧ ec2.ingress sg =
          [ {| ec2.peer := ec2.any_ipv4; ec2.connection := ec2.tcp 80 |} ]
      ∧ add_rule {| ec2.peer := ec2.any_ipv4;
                    ec2.connection := ec2.tcp (elbv2.port listener) |} sg = sg
      ∧ ∀ e proto port,
          admits (ec2.ingress sg) e proto port = true →
          proto = TCP ∧ port = 80%Z.
Proof.
  split; [vm_compute; reflexivity|].
  apply (open_listener_grant_absorbed fs0 scope0 "CdkappStack").
  vm_compute; reflexivity.
Defined.

(** ** Further properties of the evaluation *)



(** X2.  Where the stack can be constructed, the payload is read, and the
    environment has exactly one availability zone, indexing
    [vpc.availability_zones[1]] raises [IndexError] and no graph is
    returned. *)
Theorem too_few_zones_fails fs scope id text az :
  constructible scope id →
  read_text fs "cdkapp/userdata.sh" = inr text →
  scope_azs scope = [az] →
  CdkappStack fs scope id = inl IndexError.
Proof.
  intros Hok Hread Hazs. unfold CdkappStack.
  by rewrite (evaluate_one_zone fs scope id Hok text az Hazs Hread).
Qed.

Lemma too_few_zones_fails_witness :
  CdkappStack fs0 scope_one_zone "CdkappStack" = inl IndexError.
Proof.
  apply (too_few_zones_fails fs0 scope_one_zone "CdkappStack"
           [35; 33; 47; 98; 105; 110; 47; 98; 97; 115; 104]%N
           "ap-northeast-1a").
  - split; [discriminate|].
    split; [vm_compute; apply not_elem_of_nil|vm_compute; reflexivity].
  - vm_compute. reflexivity.
  - reflexivity.
Defined.

(** X3.  The two compute nodes carry two imported roles, declared under
    different construct ids, that refer to the same existing role,
    "ec2_instance_role"; both nodes are in the compute security group and
    in the egress subnet class. *)
Theorem compute_nodes_share_role fs scope id g :
  CdkappStack fs scope id = inr g →
  ∃ a b ra rb,
    instances g !! "MyInstance" = Some a
    ∧ instances g !! "MyInstance2" = Some b
    ∧ ec2.role a ≠ ec2.role b
    ∧ roles g !! ec2.role a = Some ra
    ∧ roles g !! ec2.role b = Some rb
    ∧ iam.role_name ra = "ec2_instance_role"
    ∧ iam.role_name rb = "ec2_instance_role"
    ∧ ec2.security_group a = "ec2_sg"
    ∧ ec2.security_group b = "ec2_sg"
    ∧ subnet_class g (Instance "MyInstance") = Some ec2.PRIVATE_WITH_EGRESS
    ∧ subnet_class g (Instance "MyInstance2") = Some ec2.PRIVATE_WITH_EGRESS.
Proof.
  intros (c & az0 & az1 & rest & name & ids & _ & _ & ->)%CdkappStack_inr.
  eexists _, _, _, _.
  split; [vm_compute; reflexivity|].
  split; [vm_compute; reflexivity|].
  split; [discriminate|].
  split; [vm_compute; reflexivity|].
  split; [vm_compute; reflexivity|].
  repeat split; vm_compute; reflexivity.
Qed.

Lemma compute_nodes_share_role_witness :
  CdkappStack fs0 scope0 "CdkappStack" = inr graph0
  ∧ ∃ a b ra rb,
      instances graph0 !! "MyInstance" = Some a
      ∧ instances graph0 !! "MyInstance2" = Some b
      ∧ ec2.role a ≠ ec2.role b
      ∧ roles graph0 !! ec2.role a = Some ra
      ∧ roles graph0 !! ec2.role b = Some rb
      ∧ iam.role_name ra = "ec2_instance_role"
      ∧ iam.role_name rb = "ec2_instance_role"
      ∧ ec2.security_group a = "ec2_sg"
      ∧ ec2.security_group b = "ec2_sg"
      ∧ subnet_class graph0 (Instance "MyInstance")
        = Some ec2.PRIVATE_WITH_EGRESS
      ∧ subnet_class graph0 (Instance "MyInstance2")
        = Some ec2.PRIVATE_WITH_EGRESS.
Proof.
  split; [vm_compute; reflexivity|].
  apply (compute_nodes_share_role fs0 scope0 "CdkappStack").
  vm_compute; reflexivity.
Defined.



(** ** The shape of the produced graph *)

Section Shape.

Variables (c : str) (az0 az1 : string) (rest : list string)
  (name : string) (ids : list string).

Local Abbreviation g := (root (result c az0 az1 rest name ids)).

Lemma result_roles :
  roles g =
  {[ "ec2_instance_role" := {| iam.role_name := "ec2_instance_role" |};
     "ec2_instance_role2" := {| iam.role_name := "ec2_instance_role" |} ]}.
Proof. vm_compute. reflexivity. Qed.

Lemma result_vpc_declared : is_Some (vpcs g !! "MyVPC").
Proof. rewrite result_vpcs, lookup_singleton_eq. eauto. Qed.

Lemma result_groups_declared sid :
  sid = "lb_sg" ∨ sid = "ec2_sg" ∨ sid = "rds_sg" →
  is_Some (security_groups g !! sid).
Proof.
  rewrite result_security_groups.
  intros [-> | [-> | ->]]; vm_compute; eauto.
Qed.

Lemma result_roles_declared rid :
  rid = "ec2_instance_role" ∨ rid = "ec2_instance_role2" →
  is_Some (roles g !! rid).
Proof. rewrite result_roles. intros [-> | ->]; vm_compute; eauto. Qed.

(** The instances, the cluster, the load balancer and the groups of the
    graph, each with everything it refers to. *)
Lemma result_instances_refs iid i :
  instances g !! iid = Some i →
  ec2.instance_vpc i = "MyVPC" ∧ ec2.security_group i = "ec2_sg"
  ∧ (ec2.role i = "ec2_instance_role" ∨ ec2.role i = "ec2_instance_role2")
  ∧ (ec2.availability_zone i = az0 ∨ ec2.availability_zone i = az1)
  ∧ ec2.user_data i = ec2.custom (translate_newlines c).
Proof.
  rewrite result_instances. intros H.
  apply lookup_insert_Some in H as [[_ <-]|[_ H]];
    [simpl; repeat split; auto|].
  apply lookup_singleton_Some in H as [_ <-]. simpl; repeat split; auto.
Qed.

Lemma result_clusters_refs cid cl :
  clusters g !! cid = Some cl →
  cid = "MyDatabase"
  ∧ rds.props_vpc (rds.instance_props cl) = "MyVPC"
  ∧ rds.security_groups (rds.instance_props cl) = ["rds_sg"].
Proof.
  rewrite result_clusters. intros H.
  apply lookup_singleton_Some in H as [<- <-]. done.
Qed.

Lemma result_load_balancers_refs lid l :
  load_balancers g !! lid = Some l →
  lid = "MyLoadBalancer" ∧ elbv2.lb_vpc l = "MyVPC"
  ∧ elbv2.security_group l = "lb_sg".
Proof.
  rewrite result_load_balancers. intros H.
  apply lookup_singleton_Some in H as [<- <-]. done.
Qed.

Lemma result_security_groups_refs sid sg :
  security_groups g !! sid = Some sg →
  ec2.sg_vpc sg = "MyVPC"
  ∧ NoDup (ec2.ingress sg)
  ∧ ∀ r p, r ∈ ec2.ingress sg → ec2.peer r = ec2.sg_peer p →
      p = "lb_sg" ∨ p = "ec2_sg".
Proof.
  rewrite result_security_groups. intros H.
  apply lookup_insert_Some in H as [[_ <-]|[_ H]];
    [|apply lookup_insert_Some in H as [[_ <-]|[_ H]];
      [|apply lookup_singleton_Some in H as [_ <-]]]; simpl.
  all: split; [done|].
  all: split; [apply (bool_decide_unpack _); vm_compute; exact I|].
  all: intros r p Hin Hp; rewrite ?elem_of_cons, elem_of_nil in Hin.
  - destruct Hin as [->|[]]. discriminate Hp.
  - destruct Hin as [->|[]]. injection Hp as <-. by left.
  - destruct Hin as [->|[->|[]]]; injection Hp as <-; by right.
Qed.

End Shape.

(** Helpers on rule lists and on subnet classes. *)

Lemma admits_cons r rules e proto port :
  admits (r :: rules) e proto port =
  peer_matches (ec2.peer r) e && port_matches (ec2.connection r) proto port
  || admits rules e proto port.
Proof. reflexivity. Qed.

Lemma admits_nil e proto port : admits [] e proto port = false.
Proof. reflexivity. Qed.

Lemma subnet_class_cases g r t :
  (∀ cid cl, clusters g !! cid = Some cl →
     rds.vpc_subnets (rds.instance_props cl)
     = {| ec2.selected_type := ec2.PRIVATE_ISOLATED |}) →
  (∀ iid i, instances g !! iid = Some i →
     ec2.vpc_subnets i = {| ec2.selected_type := ec2.PRIVATE_WITH_EGRESS |}) →
  (∀ lid l, load_balancers g !! lid = Some l →
     elbv2.internet_facing l = true) →
  subnet_class g r = Some t →
  t = ec2.PRIVATE_ISOLATED ∨ t = ec2.PRIVATE_WITH_EGRESS ∨ t = ec2.PUBLIC.
Proof.
  intros Hcs His Hls Hr.
  destruct r as [cid|iid|lid]; unfold subnet_class in Hr.
  - destruct (clusters g !! cid) as [cl|] eqn:Hcl; simpl in Hr; [|done].
    rewrite (Hcs _ _ Hcl) in Hr. injection Hr as <-. by left.
  - destruct (instances g !! iid) as [i|] eqn:Hi; simpl in Hr; [|done].
    rewrite (His _ _ Hi) in Hr. injection Hr as <-. right. by left.
  - destruct (load_balancers g !! lid) as [l|] eqn:Hl; simpl in Hr; [|done].
    rewrite (Hls _ _ Hl) in Hr. injection Hr as <-. right. by right.
Qed.

(** Every ordering edge of the graph leads to a later stage. *)
Lemma before_stage c az0 az1 rest name ids a b :
  before (root (result c az0 az1 rest name ids)) a b → stage a < stage b.
Proof.
  unfold before, ordering_edges. rewrite result_dependencies.
  cbn [fmap list_fmap snd fst]. rewrite !elem_of_cons, elem_of_nil.
  intros [H|[H|[H|[]]]]; injection H as -> ->; vm_compute; lia.
Qed.

Lemma tc_before_stage c az0 az1 rest name ids a b :
  tc (before (root (result c az0 az1 rest name ids))) a b → stage a < stage b.
Proof.
  induction 1 as [a b Hab|a m b Ham _ IH].
  - by apply before_stage in Hab.
  - apply before_stage in Ham. lia.
Qed.

(** X5.  Every reference in the graph resolves.  The VPC, the security
    group and the role of each instance, the VPC and the security groups
    of the cluster, the VPC and the security group of the load balancer,
    the VPC of each security group and the group named as peer of any of
    its inbound rules are declared in the graph, and both ends of every
    dependency name a declared construct. *)
Theorem references_resolve fs scope id g :
  CdkappStack fs scope id = inr g →
  (∀ iid i, instances g !! iid = Some i →
     is_Some (vpcs g !! ec2.instance_vpc i)
     ∧ is_Some (security_groups g !! ec2.security_group i)
     ∧ is_Some (roles g !! ec2.role i))
  ∧ (∀ cid cl, clusters g !! cid = Some cl →
       is_Some (vpcs g !! rds.props_vpc (rds.instance_props cl))
       ∧ ∀ sid, sid ∈ rds.security_groups (rds.instance_props cl) →
           is_Some (security_groups g !! sid))
  ∧ (∀ lid l, load_balancers g !! lid = Some l →
       is_Some (vpcs g !! elbv2.lb_vpc l)
       ∧ is_Some (security_groups g !! elbv2.security_group l))
  ∧ (∀ sid sg, security_groups g !! sid = Some sg →
       is_Some (vpcs g !! ec2.sg_vpc sg)
       ∧ ∀ r p, r ∈ ec2.ingress sg → ec2.peer r = ec2.sg_peer p →
           is_Some (security_groups g !! p))
  ∧ (∀ a b, (a, b) ∈ dependencies g →
       declared g a = true ∧ declared g b = true).
Proof.
  intros (c & az0 & az1 & rest & name & ids & _ & _ & ->)%CdkappStack_inr.
  split; [|split; [|split; [|split]]].
  - intros iid i (-> & -> & Hrole & _)%result_instances_refs.
    split; [apply result_vpc_declared|].
    split; [apply result_groups_declared; auto|].
    apply result_roles_declared. destruct Hrole as [-> | ->]; auto.
  - intros cid cl (_ & -> & ->)%result_clusters_refs.
    split; [apply result_vpc_declared|].
    intros sid ->%list_elem_of_singleton.
    apply result_groups_declared; auto.
  - intros lid l (_ & -> & ->)%result_load_balancers_refs.
    split; [apply result_vpc_declared|].
    apply result_groups_declared; auto.
  - intros sid sg (-> & _ & Hpeers)%result_security_groups_refs.
    split; [apply result_vpc_declared|].
    intros r p Hin Hp. apply result_groups_declared.
    destruct (Hpeers r p Hin Hp) as [-> | ->]; auto.
  - intros a b. rewrite result_dependencies.
    rewrite !elem_of_cons, elem_of_nil.
    intros [H|[H|[H|[]]]]; injection H as -> ->;
      split; vm_compute; reflexivity.
Qed.

Lemma references_resolve_witness :
  CdkappStack fs0 scope0 "CdkappStack" = inr graph0
  ∧ ((∀ iid i, instances graph0 !! iid = Some i →
     is_Some (vpcs graph0 !! ec2.instance_vpc i)
     ∧ is_Some (security_groups graph0 !! ec2.security_group i)
     ∧ is_Some (roles graph0 !! ec2.role i))
  ∧ (∀ cid cl, clusters graph0 !! cid = Some cl →
       is_Some (vpcs graph0 !! rds.props_vpc (rds.instance_props cl))
       ∧ ∀ sid, sid ∈ rds.security_groups (rds.instance_props cl) →
           is_Some (security_groups graph0 !! sid))
  ∧ (∀ lid l, load_balancers graph0 !! lid = Some l →
       is_Some (vpcs graph0 !! elbv2.lb_vpc l)
       ∧ is_Some (security_groups graph0 !! elbv2.security_group l))
  ∧ (∀ sid sg, security_groups graph0 !! sid = Some sg →
       is_Some (vpcs graph0 !! ec2.sg_vpc sg)
       ∧ ∀ r p, r ∈ ec2.ingress sg → ec2.peer r = ec2.sg_peer p →
           is_Some (security_groups graph0 !! p))
  ∧ (∀ a b, (a, b) ∈ dependencies graph0 →
       declared graph0 a = true ∧ declared graph0 b = true)).
Proof.
  split; [vm_compute; reflexivity|].
  apply (references_resolve fs0 scope0 "CdkappStack").
  vm_compute; reflexivity.
Defined.

(** X6.  The ordering edges have no cycle: no construct is, through any
    chain of edges, ordered before itself.  Along the edges the database
    cluster comes before the listener; nothing is ordered before the
    database cluster and nothing after the listener. *)
Theorem ordering_acyclic fs scope id g :
  CdkappStack fs scope id = inr g →
  (∀ a, ¬ tc (before g) a a)
  ∧ tc (before g) ["MyDatabase"] ["MyLoadBalancer"; "Listener"]
  ∧ (∀ a, ¬ before g a ["MyDatabase"])
  ∧ (∀ b, ¬ before g ["MyLoadBalancer"; "Listener"] b).
Proof.
  intros (c & az0 & az1 & rest & name & ids & _ & _ & ->)%CdkappStack_inr.
  split; [|split; [|split]].
  - intros a Htc%tc_before_stage. lia.
  - apply tc_l with ["MyInstance"]; [|apply tc_once].
    all: unfold before, ordering_edges; rewrite result_dependencies.
    all: cbn [fmap list_fmap snd fst].
    + left.
    + right. left.
  - intros a Hab%before_stage. vm_compute in Hab. lia.
  - intros b Hab%before_stage.
    change (stage ["MyLoadBalancer"; "Listener"]) with 2 in Hab.
    unfold stage in Hab. repeat case_bool_decide; lia.
Qed.

Lemma ordering_acyclic_witness :
  CdkappStack fs0 scope0 "CdkappStack" = inr graph0
  ∧ ((∀ a, ¬ tc (before graph0) a a)
  ∧ tc (before graph0) ["MyDatabase"] ["MyLoadBalancer"; "Listener"]
  ∧ (∀ a, ¬ before graph0 a ["MyDatabase"])
  ∧ (∀ b, ¬ before graph0 ["MyLoadBalancer"; "Listener"] b)).
Proof.
  split; [vm_compute; reflexivity|].
  apply (ordering_acyclic fs0 scope0 "CdkappStack").
  vm_compute; reflexivity.
Defined.

(** X7.  The payload text reaches the graph through the user data of the
    instances and nowhere else: two successful evaluations with the same
    scope and construct id on hosts with different payloads give graphs
    that are equal once the instances of the first carry the text read on
    the second. *)
Theorem payload_only_sets_user_data fs1 fs2 scope id g1 g2 text2 :
  CdkappStack fs1 scope id = inr g1 →
  CdkappStack fs2 scope id = inr g2 →
  read_text fs2 "cdkapp/userdata.sh" = inr text2 →
  with_instances (fmap (with_user_data (ec2.custom text2))) g1 = g2.
Proof.
  intros (w1 & Hw1 & ->)%CdkappStack_evaluate
         (w2 & Hw2 & ->)%CdkappStack_evaluate Hread.
  destruct (evaluate_inr fs1 scope id w1 Hw1)
    as (c1 & az0 & az1 & rest & _ & _ & Hazs & ->).
  destruct (evaluate_inr fs2 scope id w2 Hw2)
    as (c2 & az0' & az1' & rest' & _ & (bytes & Hfile & Hdec) & Hazs' & ->).
  rewrite Hazs in Hazs'. injection Hazs' as <- <- <-.
  change "cdkapp/userdata.sh" with userdata_path in Hread.
  apply read_text_inr in Hread as (bytes' & c' & Hfile' & Hdec' & ->).
  rewrite Hfile in Hfile'. injection Hfile' as <-.
  rewrite Hdec in Hdec'. injection Hdec' as <-.
  clear Hw1 Hw2.
  generalize (stack_name_in scope id) (scope_ids scope ++ [sanitize_id id]).
  intros name ids. vm_compute. reflexivity.
Qed.

Lemma payload_only_sets_user_data_witness :
  ∃ text2,
    CdkappStack fs_crlf scope0 "CdkappStack" = inr (root world_crlf)
    ∧ read_text fs_crlf "cdkapp/userdata.sh" = inr text2
    ∧ with_instances (fmap (with_user_data (ec2.custom text2))) graph0
      = root world_crlf.
Proof.
  eexists. split; [vm_compute; reflexivity|].
  split; [vm_compute; reflexivity|].
  apply (payload_only_sets_user_data fs0 fs_crlf scope0 "CdkappStack").
  - vm_compute; reflexivity.
  - vm_compute; reflexivity.
  - vm_compute; reflexivity.
Defined.

(** X9.  The graph has one VPC.  It spans the first three availability
    zones of the environment (two when the environment has only two), and
    every instance sits in one of the VPC's zones. *)
Theorem zones_of_vpc_and_instances fs scope id g :
  CdkappStack fs scope id = inr g →
  ∃ vpc,
    vpcs g = {[ "MyVPC" := vpc ]}
    ∧ ec2.availability_zones vpc = take 3 (scope_azs scope)
    ∧ 2 ≤ length (ec2.availability_zones vpc) ≤ 3
    ∧ ∀ iid i, instances g !! iid = Some i →
        ec2.availability_zone i ∈ ec2.availability_zones vpc.
Proof.
  intros (c & az0 & az1 & rest & name & ids & _ & Hazs & ->)%CdkappStack_inr.
  eexists. split; [apply result_vpcs|]. rewrite Hazs.
  split; [reflexivity|]. cbn [ec2.availability_zones take].
  split; [destruct rest; simpl; lia|].
  intros iid i (_ & _ & _ & Haz & _)%result_instances_refs.
  rewrite !elem_of_cons. destruct Haz as [-> | ->]; auto.
Qed.

Lemma zones_of_vpc_and_instances_witness :
  CdkappStack fs0 scope0 "CdkappStack" = inr graph0
  ∧ ∃ vpc,
      vpcs graph0 = {[ "MyVPC" := vpc ]}
      ∧ ec2.availability_zones vpc = take 3 (scope_azs scope0)
      ∧ 2 ≤ length (ec2.availability_zones vpc) ≤ 3
      ∧ ∀ iid i, instances graph0 !! iid = Some i →
          ec2.availability_zone i ∈ ec2.availability_zones vpc.
Proof.
  split; [vm_compute; reflexivity|].
  apply (zones_of_vpc_and_instances fs0 scope0 "CdkappStack").
  vm_compute; reflexivity.
Defined.

(** X10.  What each group lets in, exactly.  The load-balancer group lets
    every endpoint in on TCP port 80.  The compute group lets an endpoint
    in exactly when it is attached to the load-balancer group and the
    traffic is TCP port 8443; the database group exactly when it is
    attached to the compute group and the traffic is TCP port 3306 or 22.
    An endpoint attached to no security group reaches neither the compute
    group nor the database group. *)
Theorem inbound_reachability fs scope id g :
  CdkappStack fs scope id = inr g →
  ∃ lb_sg ec2_sg rds_sg,
    security_groups g !! "lb_sg" = Some lb_sg
    ∧ security_groups g !! "ec2_sg" = Some ec2_sg
    ∧ security_groups g !! "rds_sg" = Some rds_sg
    ∧ (∀ e, admits (ec2.ingress lb_sg) e TCP 80 = true)
    ∧ (∀ e proto port,
         admits (ec2.ingress ec2_sg) e proto port = true
         ↔ "lb_sg" ∈ groups e ∧ proto = TCP ∧ port = 8443%Z)
    ∧ (∀ e proto port,
         admits (ec2.ingress rds_sg) e proto port = true
         ↔ "ec2_sg" ∈ groups e ∧ proto = TCP
           ∧ (port = 3306 ∨ port = 22)%Z)
    ∧ (∀ e proto port, groups e = [] →
         admits (ec2.ingress ec2_sg) e proto port = false
         ∧ admits (ec2.ingress rds_sg) e proto port = false).
Proof.
  intros (c & az0 & az1 & rest & name & ids & _ & _ & ->)%CdkappStack_inr.
  rewrite result_security_groups. eexists _, _, _.
  split; [vm_compute; reflexivity|].
  split; [vm_compute; reflexivity|].
  split; [vm_compute; reflexivity|].
  split; [reflexivity|].
  assert (∀ e proto port,
    admits [ {| ec2.peer := ec2.sg_peer "lb_sg";
                ec2.connection := ec2.tcp 8443 |} ] e proto port = true
    ↔ "lb_sg" ∈ groups e ∧ proto = TCP ∧ port = 8443%Z) as Hec2.
  { intros e proto port. rewrite admits_cons, admits_nil.
    cbn [ec2.peer ec2.connection peer_matches].
    rewrite orb_false_r, andb_true_iff, bool_decide_eq_true, port_matches_tcp.
    done. }
  assert (∀ e proto port,
    admits [ {| ec2.peer := ec2.sg_peer "ec2_sg";
                ec2.connection := ec2.tcp 3306 |};
             {| ec2.peer := ec2.sg_peer "ec2_sg";
                ec2.connection := ec2.tcp 22 |} ] e proto port = true
    ↔ "ec2_sg" ∈ groups e ∧ proto = TCP ∧ (port = 3306 ∨ port = 22)%Z)
    as Hrds.
  { intros e proto port. rewrite !admits_cons, admits_nil.
    cbn [ec2.peer ec2.connection peer_matches].
    rewrite orb_false_r, orb_true_iff, !andb_true_iff, bool_decide_eq_true,
      !port_matches_tcp.
    split.
    - intros [(? & ? & ?)|(? & ? & ?)]; auto.
    - intros (? & ? & [?|?]); auto. }
  split; [exact Hec2|]. split; [exact Hrds|].
  intros e proto port He. split; apply not_true_is_false.
  - intros (Hin & _)%Hec2. rewrite He in Hin. by apply elem_of_nil in Hin.
  - intros (Hin & _)%Hrds. rewrite He in Hin. by apply elem_of_nil in Hin.
Qed.

Lemma inbound_reachability_witness :
  CdkappStack fs0 scope0 "CdkappStack" = inr graph0
  ∧ (∃ lb_sg ec2_sg rds_sg,
    security_groups graph0 !! "lb_sg" = Some lb_sg
    ∧ security_groups graph0 !! "ec2_sg" = Some ec2_sg
    ∧ security_groups graph0 !! "rds_sg" = Some rds_sg
    ∧ (∀ e, admits (ec2.ingress lb_sg) e TCP 80 = true)
    ∧ (∀ e proto port,
         admits (ec2.ingress ec2_sg) e proto port = true
         ↔ "lb_sg" ∈ groups e ∧ proto = TCP ∧ port = 8443%Z)
    ∧ (∀ e proto port,
         admits (ec2.ingress rds_sg) e proto port = true
         ↔ "ec2_sg" ∈ groups e ∧ proto = TCP
           ∧ (port = 3306 ∨ port = 22)%Z)
    ∧ (∀ e proto port, groups e = [] →
         admits (ec2.ingress ec2_sg) e proto port = false
         ∧ admits (ec2.ingress rds_sg) e proto port = false)).
Proof.
  split; [vm_compute; reflexivity|].
  apply (inbound_reachability fs0 scope0 "CdkappStack").
  vm_compute; reflexivity.
Defined.

(** X11.  The target group of the listener forwards to port 80, and every
    instance is bound to the compute group; the compute group lets
    nothing in on that port, from any endpoint and on any protocol (it
    opens TCP port 8443 only). *)
Theorem target_port_closed_on_compute_group fs scope id g :
  CdkappStack fs scope id = inr g →
  ∃ lb listener tg sg,
    load_balancers g !! "MyLoadBalancer" = Some lb
    ∧ elbv2.listeners lb !! "Listener" = Some listener
    ∧ elbv2.target_groups listener !! "Targets" = Some tg
    ∧ elbv2.group_port tg = 80%Z
    ∧ security_groups g !! "ec2_sg" = Some sg
    ∧ (∀ iid i, instances g !! iid = Some i →
         ec2.security_group i = "ec2_sg")
    ∧ ∀ e proto,
        admits (ec2.ingress sg) e proto (elbv2.group_port tg) = false.
Proof.
  intros (c & az0 & az1 & rest & name & ids & _ & _ & ->)%CdkappStack_inr.
  eexists _, _, _, _.
  split; [rewrite result_load_balancers; vm_compute; reflexivity|].
  split; [vm_compute; reflexivity|].
  split; [vm_compute; reflexivity|].
  split; [reflexivity|].
  split; [rewrite result_security_groups; vm_compute; reflexivity|].
  split.
  - by intros iid i (_ & -> & _)%result_instances_refs.
  - intros e proto. cbn [ec2.ingress elbv2.group_port].
    rewrite admits_cons, admits_nil, orb_false_r.
    apply andb_false_iff. right. by destruct proto.
Qed.

Lemma target_port_closed_on_compute_group_witness :
  CdkappStack fs0 scope0 "CdkappStack" = inr graph0
  ∧ (∃ lb listener tg sg,
    load_balancers graph0 !! "MyLoadBalancer" = Some lb
    ∧ elbv2.listeners lb !! "Listener" = Some listener
    ∧ elbv2.target_groups listener !! "Targets" = Some tg
    ∧ elbv2.group_port tg = 80%Z
    ∧ security_groups graph0 !! "ec2_sg" = Some sg
    ∧ (∀ iid i, instances graph0 !! iid = Some i →
         ec2.security_group i = "ec2_sg")
    ∧ ∀ e proto,
        admits (ec2.ingress sg) e proto (elbv2.group_port tg) = false).
Proof.
  split; [vm_compute; reflexivity|].
  apply (target_port_closed_on_compute_group fs0 scope0 "CdkappStack").
  vm_compute; reflexivity.
Defined.

(** X12.  The cluster is placed in the isolated subnet class, both
    instances in the private-with-egress class, the load balancer in the
    public class; and whatever class a resource of the graph is placed
    in, the VPC configures a subnet group of that class, with a /24
    mask. *)
Theorem subnet_classes_configured fs scope id g :
  CdkappStack fs scope id = inr g →
  subnet_class g (Cluster "MyDatabase") = Some ec2.PRIVATE_ISOLATED
  ∧ subnet_class g (Instance "MyInstance") = Some ec2.PRIVATE_WITH_EGRESS
  ∧ subnet_class g (Instance "MyInstance2") = Some ec2.PRIVATE_WITH_EGRESS
  ∧ subnet_class g (LoadBalancer "MyLoadBalancer") = Some ec2.PUBLIC
  ∧ ∀ r t, subnet_class g r = Some t →
      ∃ vpc cfg, vpcs g !! "MyVPC" = Some vpc
                 ∧ cfg ∈ ec2.subnet_configuration vpc
                 ∧ ec2.subnet_type cfg = t
                 ∧ ec2.cidr_mask cfg = 24%Z.
Proof.
  intros (c & az0 & az1 & rest & name & ids & _ & _ & ->)%CdkappStack_inr.
  split; [vm_compute; reflexivity|].
  split; [vm_compute; reflexivity|].
  split; [vm_compute; reflexivity|].
  split; [vm_compute; reflexivity|].
  intros r t Hr.
  apply subnet_class_cases in Hr as Ht.
  - clear Hr. rewrite result_vpcs, lookup_singleton_eq.
    destruct Ht as [-> | [-> | ->]].
    + eexists _, {| ec2.subnet_type := ec2.PRIVATE_ISOLATED;
                    ec2.name := "RDS"; ec2.cidr_mask := 24 |}.
      split; [reflexivity|]. cbn [ec2.subnet_configuration].
      split; [|done]. rewrite !elem_of_cons. auto.
    + eexists _, {| ec2.subnet_type := ec2.PRIVATE_WITH_EGRESS;
                    ec2.name := "PrivateWithEgress"; ec2.cidr_mask := 24 |}.
      split; [reflexivity|]. cbn [ec2.subnet_configuration].
      split; [|done]. rewrite !elem_of_cons. auto.
    + eexists _, {| ec2.subnet_type := ec2.PUBLIC; ec2.name := "Public";
                    ec2.cidr_mask := 24 |}.
      split; [reflexivity|]. cbn [ec2.subnet_configuration].
      split; [|done]. rewrite !elem_of_cons. auto.
  - intros cid cl Hcl. rewrite result_clusters in Hcl.
    by apply lookup_singleton_Some in Hcl as [_ <-].
  - by intros iid i [? _]%result_instances_inv.
  - by intros lid l [? _]%result_load_balancers_inv.
Qed.

Lemma subnet_classes_configured_witness :
  CdkappStack fs0 scope0 "CdkappStack" = inr graph0
  ∧ (subnet_class graph0 (Cluster "MyDatabase") = Some ec2.PRIVATE_ISOLATED
  ∧ subnet_class graph0 (Instance "MyInstance") = Some ec2.PRIVATE_WITH_EGRESS
  ∧ subnet_class graph0 (Instance "MyInstance2") = Some ec2.PRIVATE_WITH_EGRESS
  ∧ subnet_class graph0 (LoadBalancer "MyLoadBalancer") = Some ec2.PUBLIC
  ∧ ∀ r t, subnet_class graph0 r = Some t →
      ∃ vpc cfg, vpcs graph0 !! "MyVPC" = Some vpc
                 ∧ cfg ∈ ec2.subnet_configuration vpc
                 ∧ ec2.subnet_type cfg = t
                 ∧ ec2.cidr_mask cfg = 24%Z).
Proof.
  split; [vm_compute; reflexivity|].
  apply (subnet_classes_configured fs0 scope0 "CdkappStack").
  vm_compute; reflexivity.
Defined.
